(** * Speech services of talk-genai-hr: a shallow embedding and its properties

    Two Flask services are modelled, each from its [app.py]:
    - [streaming-tts-service]: synthesize, synthesize-stream, serve audio,
      hourly sweep;
    - [vad-service]: batch detection and single-chunk detection.

    Part I holds the definitions (Python semantics shared by both services,
    then one module per service).  Part II holds the lemmas and theorems.

    Conventions.
    - A Python [str] is a list of code points; the service's own ASCII
      strings (paths, keys, messages) are Rocq strings.
    - A Python [float] (binary64) and a numpy [float32] are modelled by the
      rational they denote; every arithmetic operation rounds its exact
      result to nearest, ties to even, at 53 resp. 24 significant bits.
      Overflow, subnormals, NaN and signed zero are outside the model.
    - Third-party calls (the Parler-TTS model and tokenizer, the Silero
      model and its helpers, the audio codecs, the entropy source) are
      fields of an environment record; those that can raise return [pyres].
    - The file system is a finite map from paths to nodes; writing,
      deleting and testing a path never fail. *)

From Stdlib Require Import ZArith QArith Qround Qpower Lia Lqa List String Ascii SpecFloat.
From Stdlib.Strings Require Import Byte.
From stdpp Require Import base gmap strings list.
Import ListNotations.

#[local] Set Warnings "-register-all".

(* ================================================================= *)
(** * Part I: definitions *)
(* ================================================================= *)

Module Py.

(** ** Results of fallible calls, and the state-and-exception monad *)

Inductive pyres (A : Type) : Type :=
| Ok (a : A)
| Raise (msg : string).
Arguments Ok {A} a.
Arguments Raise {A} msg.

(** A computation over a state [S] that returns or raises; the state
    reached is kept in both cases (a write done before a [raise] stays). *)
Definition M (S A : Type) : Type := S -> pyres A * S.

Definition ret {S A} (a : A) : M S A := fun s => (Ok a, s).

Definition raise {S A} (msg : string) : M S A := fun s => (Raise msg, s).

Definition bind {S A B} (m : M S A) (k : A -> M S B) : M S B :=
  fun s =>
    match m s with
    | (Ok a, s') => k a s'
    | (Raise e, s') => (Raise e, s')
    end.

Definition lift {S A} (r : pyres A) : M S A := fun s => (r, s).

(** [try: m finally: f] *)
Definition finally {S A} (m : M S A) (f : S -> S) : M S A :=
  fun s => let (r, s') := m s in (r, f s').

Notation "'let!' x ':=' e 'in' k" := (bind e (fun x => k))
  (at level 10, x name, e at level 100, k at level 200).

(** ** Strings *)

(** A Python [str]: its code points. *)
Definition pystr : Type := list N.

(** A literal of the source, as a Python [str]. *)
Definition u (s : string) : pystr := map N_of_ascii (list_ascii_of_string s).

(** [Py_UNICODE_ISSPACE]: the code points [str.split()] separates on. *)
Definition isspace (c : N) : bool :=
  ((9 <=? c) && (c <=? 13) || (28 <=? c) && (c <=? 32)
   || (c =? 133) || (c =? 160) || (c =? 5760)
   || (8192 <=? c) && (c <=? 8202)
   || (c =? 8232) || (c =? 8233) || (c =? 8239) || (c =? 8287)
   || (c =? 12288))%N.

(** [s.split()] with no argument: maximal runs of non-space code points,
    in order.  [cur] is the word being scanned, last code point first. *)
Fixpoint split_from (cur : pystr) (s : pystr) : list pystr :=
  match s with
  | [] => match cur with [] => [] | _ => [rev cur] end
  | c :: s' =>
      if isspace c then
        match cur with
        | [] => split_from [] s'
        | _ => rev cur :: split_from [] s'
        end
      else split_from (c :: cur) s'
  end.

Definition str_split (s : pystr) : list pystr := split_from [] s.

(** [len(x)] *)
Definition len {A} (l : list A) : Z := Z.of_nat (length l).

(** ** JSON values as [json.loads] returns them *)

Inductive json : Type :=
| JNull
| JBool (b : bool)
| JInt (z : Z)
| JFloat (q : Q)
| JStr (s : pystr)
| JArr (l : list json)
| JObj (m : gmap string json).

(** Truth value of an object, as [not x] tests it. *)
Definition truthy (v : json) : bool :=
  match v with
  | JNull => false
  | JBool b => b
  | JInt z => negb (z =? 0)%Z
  | JFloat q => negb (Qeq_bool q 0)
  | JStr s => match s with [] => false | _ => true end
  | JArr l => match l with [] => false | _ => true end
  | JObj m => negb (Nat.eqb (size m) 0)
  end.

(** [data.get]: only a dict has the method; [None], lists, numbers and
    strings raise [AttributeError]. *)
Definition as_dict (data : json) : pyres (gmap string json) :=
  match data with
  | JObj m => Ok m
  | JNull => Raise "'NoneType' object has no attribute 'get'"
  | JBool _ => Raise "'bool' object has no attribute 'get'"
  | JInt _ => Raise "'int' object has no attribute 'get'"
  | JFloat _ => Raise "'float' object has no attribute 'get'"
  | JStr _ => Raise "'str' object has no attribute 'get'"
  | JArr _ => Raise "'list' object has no attribute 'get'"
  end.

(** [d.get(key, default)] *)
Definition dict_get (d : gmap string json) (key : string) (dflt : json) : json :=
  match d !! key with
  | Some v => v
  | None => dflt
  end.

(** [text.split()]: only a [str] has the method. *)
Definition split_method (v : json) : pyres (list pystr) :=
  match v with
  | JStr s => Ok (str_split s)
  | JNull => Raise "'NoneType' object has no attribute 'split'"
  | JBool _ => Raise "'bool' object has no attribute 'split'"
  | JInt _ => Raise "'int' object has no attribute 'split'"
  | JFloat _ => Raise "'float' object has no attribute 'split'"
  | JArr _ => Raise "'list' object has no attribute 'split'"
  | JObj _ => Raise "'dict' object has no attribute 'split'"
  end.

(** ** Floating point *)

Definition pow2 (e : Z) : Q := (2 ^ e)%Q.

(** For [0 < x]: the [e] with [2^e <= x < 2^(e+1)]. *)
Definition ilog2 (x : Q) : Z :=
  let d := (Z.log2 (Qnum x) - Z.log2 (Zpos (Qden x)))%Z in
  if Qle_bool (pow2 d) x then d else (d - 1)%Z.

Definition round_half_even (m : Q) : Z :=
  let f := Qfloor m in
  match Qcompare (m - inject_Z f) (1 # 2) with
  | Lt => f
  | Gt => (f + 1)%Z
  | Eq => if Z.even f then f else (f + 1)%Z
  end.

Definition RNpos (prec : Z) (x : Q) : Q :=
  let e := (ilog2 x - (prec - 1))%Z in
  (inject_Z (round_half_even (x / pow2 e)) * pow2 e)%Q.

(** Round to nearest, ties to even, at [prec] significant bits. *)
Definition RN (prec : Z) (x : Q) : Q :=
  match Qcompare x 0 with
  | Eq => 0%Q
  | Gt => RNpos prec x
  | Lt => (- RNpos prec (- x))%Q
  end.

(** A float literal of the source. *)
Definition lit (q : Q) : Q := RN 53 q.

(** [float(n)], the conversion an [int] operand undergoes. *)
Definition float_of_int (n : Z) : Q := RN 53 (inject_Z n).

Definition fmul64 (x y : Q) : Q := RN 53 (x * y).
Definition fadd64 (x y : Q) : Q := RN 53 (x + y).
Definition fdiv64 (x y : Q) : Q := RN 53 (x / y).

Definition to_float32 (x : Q) : Q := RN 24 x.
Definition fmul32 (x y : Q) : Q := RN 24 (x * y).
Definition fdiv32 (x y : Q) : Q := RN 24 (x / y).

(** [a / b] on two [int]s: the float nearest to the quotient. *)
Definition py_truediv (a b : Z) : Q := RN 53 (inject_Z a / inject_Z b).

(** [int(x)] on a float: truncation toward zero. *)
Definition py_int (x : Q) : Z :=
  if Qle_bool 0 x then Qfloor x else Qceiling x.

(** [np.pi], the binary64 nearest to pi. *)
Definition np_pi : Q := (7074237752028440 # 2251799813685248)%Q.

(** The standard library's reference binary64, to compare [RN] with: the
    rational a float denotes, and the float of an integer. *)
Definition SF2Q (f : spec_float) : Q :=
  match f with
  | S754_finite s m e => ((if s then -1 else 1) * inject_Z (Zpos m) * pow2 e)%Q
  | _ => 0%Q
  end.

Definition Z2SF (z : Z) : spec_float := binary_normalize 53 1024 z 0 false.

(** ** Ranges, slices, bytes *)

(** [range(start, stop, step)] for a positive step. *)
Definition py_range (start stop step : Z) : list Z :=
  map (fun k => (start + step * Z.of_nat k)%Z)
      (seq 0 (Z.to_nat ((stop - start + step - 1) / step))).

(** [l[i:j]] for [0 <= i <= j]; the end is clipped to the length. *)
Definition py_slice {A} (l : list A) (i j : Z) : list A :=
  firstn (Z.to_nat (j - i)) (skipn (Z.to_nat i) l).

Definition byte_of_Z (z : Z) : byte :=
  match Byte.of_N (Z.to_N (z mod 256)) with
  | Some b => b
  | None => x00
  end.

Definition Z_of_byte (b : byte) : Z := Z.of_N (Byte.to_N b).

(** Wrap-around into the 16-bit two's-complement range. *)
Definition wrap16 (z : Z) : Z := ((z + 32768) mod 65536 - 32768)%Z.

(** [x.astype(np.int16)] on one float: truncation, then 16-bit wrap. *)
Definition astype_int16 (x : Q) : Z := wrap16 (py_int x).

(** One int16 in [tobytes()] order (little-endian). *)
Definition int16_bytes (v : Z) : list byte :=
  [byte_of_Z v; byte_of_Z (v / 256)].

(** [arr.tobytes()] on an int16 array. *)
Definition tobytes (arr : list Z) : list byte := flat_map int16_bytes arr.

(** One int16 from its two bytes. *)
Definition int16_of_bytes (lo hi : byte) : Z :=
  let v := (Z_of_byte lo + 256 * Z_of_byte hi)%Z in
  if (v <? 32768)%Z then v else (v - 65536)%Z.

Fixpoint int16_pairs (bs : list byte) : list Z :=
  match bs with
  | lo :: hi :: rest => int16_of_bytes lo hi :: int16_pairs rest
  | _ => []
  end.

(** [np.frombuffer(buf, dtype=np.int16)] *)
Definition np_frombuffer_int16 (buf : list byte) : pyres (list Z) :=
  if Nat.even (length buf) then Ok (int16_pairs buf)
  else Raise "buffer size must be a multiple of element size".

End Py.

(* ----------------------------------------------------------------- *)
(** ** Paths and the file system *)

Module FS.

Definition chars (s : string) : list ascii := list_ascii_of_string s.
Definition str (l : list ascii) : string := string_of_list_ascii l.

Definition is_slash (c : ascii) : bool := Ascii.eqb c "/".

Definition no_slash (l : list ascii) : bool := forallb (fun c => negb (is_slash c)) l.

Definition starts_with_slash (s : string) : bool :=
  match chars s with
  | c :: _ => is_slash c
  | [] => false
  end.

Definition ends_with_slash (s : string) : bool :=
  match rev (chars s) with
  | c :: _ => is_slash c
  | [] => false
  end.

(** [posixpath.join(a, b)] *)
Definition os_path_join (a b : string) : string :=
  if starts_with_slash b then b
  else if String.eqb a "" || ends_with_slash a then a +:+ b
  else a +:+ "/" +:+ b.

(** The components of a path, split at every slash. *)
Fixpoint split_path (cur : list ascii) (s : list ascii) : list (list ascii) :=
  match s with
  | [] => [rev cur]
  | c :: s' =>
      if is_slash c then rev cur :: split_path [] s'
      else split_path (c :: cur) s'
  end.

(** One step of path resolution; [stack] holds the directories entered so
    far, innermost first. *)
Definition enter (stack : list (list ascii)) (comp : list ascii) : list (list ascii) :=
  if bool_decide (comp = []) || bool_decide (comp = ["."%char]) then stack
  else if bool_decide (comp = ["."%char; "."%char]) then tl stack
  else comp :: stack.

Definition join_components (cs : list (list ascii)) : list ascii :=
  match cs with
  | [] => ["/"%char]
  | _ => flat_map (fun c => "/"%char :: c) cs
  end.

(** The absolute path the kernel reaches for [p]: empty components and
    [.] are skipped, [..] goes up (symbolic links are not modelled). *)
Definition resolve (p : string) : string :=
  str (join_components (rev (fold_left enter (split_path [] (chars p)) []))).

Inductive node : Type :=
| File (content : list byte) (mtime : Q)
| Dir.

Definition os_path_exists (fs : gmap string node) (p : string) : bool :=
  match fs !! resolve p with
  | Some _ => true
  | None => false
  end.

Definition os_path_isfile (fs : gmap string node) (p : string) : bool :=
  match fs !! resolve p with
  | Some (File _ _) => true
  | _ => false
  end.

Definition os_path_getmtime (fs : gmap string node) (p : string) : Q :=
  match fs !! resolve p with
  | Some (File _ t) => t
  | _ => 0%Q
  end.

Definition write_file (fs : gmap string node) (p : string) (content : list byte) (now : Q)
  : gmap string node :=
  <[resolve p := File content now]> fs.

Definition os_remove (fs : gmap string node) (p : string) : gmap string node :=
  delete (resolve p) fs.

Fixpoint strip_prefix (p s : list ascii) : option (list ascii) :=
  match p, s with
  | [], _ => Some s
  | c :: p', d :: s' => if Ascii.eqb c d then strip_prefix p' s' else None
  | _ :: _, [] => None
  end.

(** The name under which the entry at key [k] appears in directory [d]. *)
Definition child_name (d k : string) : option string :=
  match strip_prefix (chars d ++ ["/"%char]) (chars k) with
  | Some (c :: rest) => if no_slash (c :: rest) then Some (str (c :: rest)) else None
  | _ => None
  end.

(** [os.listdir(d)] *)
Definition os_listdir (fs : gmap string node) (d : string) : list string :=
  omap (fun kv => child_name (resolve d) (fst kv)) (map_to_list fs).

(** No character of the list is a slash. *)
Definition slash_free (l : list ascii) : Prop := Forall (fun c => is_slash c = false) l.

End FS.

(* ================================================================= *)
(** ** The text-to-speech service ([streaming-tts-service/app.py]) *)

Module TTS.
Import Py FS.

Definition AUDIO_DIR : string := "/tmp/tts_audio".
Definition SAMPLING_RATE : Z := 24000.

(** What the service calls and does not define. *)
Record Env : Type := {
  Model : Type;
  Tokenizer : Type;
  Ids : Type;                     (* a tensor of token ids *)
  Rng : Type;                     (* state of torch's generator *)
  Entropy : Type;                 (* state of the kernel's entropy pool *)
  (* [from parler_tts import ...], [from transformers import ...] *)
  import_parler_tts : pyres unit;
  model_from_pretrained : string -> pyres Model;
  tokenizer_from_pretrained : string -> pyres Tokenizer;
  cuda_is_available : bool;
  model_to : Model -> string -> pyres Model;
  (* [tokenizer(x, return_tensors="pt").input_ids.to(device)] *)
  tokenize : Tokenizer -> json -> string -> pyres Ids;
  ones_like : Ids -> Ids;
  (* [model.generate(input_ids=, prompt_input_ids=, attention_mask=)
      .cpu().numpy().squeeze()]: the float32 waveform *)
  generate : Model -> Ids -> Ids -> Ids -> Rng -> pyres (list Q) * Rng;
  np_sin : Q -> Q;
  (* the bytes [torchaudio.save] writes for a float32 waveform and a rate *)
  wav_encode : list Q -> Z -> list byte;
  (* [os.urandom(16)], read as a big-endian number *)
  urandom16 : Entropy -> N * Entropy
}.

(** The module-level globals (lines 25-27). *)
Record globals (E : Env) : Type := {
  MODEL_LOADED : bool;
  model : option (Model E);
  tokenizer : option (Tokenizer E)
}.
Arguments MODEL_LOADED {E} g.
Arguments model {E} g.
Arguments tokenizer {E} g.

Definition device (E : Env) : string :=
  if cuda_is_available E then "cuda" else "cpu".

(** [load_model()]: every step may raise; the handler of line 50 then
    leaves [MODEL_LOADED] false. *)
Definition load_model (E : Env) : globals E :=
  let model_name := "parler-tts/parler-tts-mini-v1" in
  match import_parler_tts E with
  | Raise _ => {| MODEL_LOADED := false; model := None; tokenizer := None |}
  | Ok _ =>
      match model_from_pretrained E model_name with
      | Raise _ => {| MODEL_LOADED := false; model := None; tokenizer := None |}
      | Ok m =>
          match tokenizer_from_pretrained E model_name with
          | Raise _ => {| MODEL_LOADED := false; model := Some m; tokenizer := None |}
          | Ok t =>
              match model_to E m (device E) with
              | Raise _ => {| MODEL_LOADED := false; model := Some m; tokenizer := Some t |}
              | Ok m' => {| MODEL_LOADED := true; model := Some m'; tokenizer := Some t |}
              end
          end
      end
  end.

Record state (E : Env) : Type := {
  fs : gmap string node;
  rng : Rng E;
  entropy : Entropy E
}.
Arguments fs {E} s.
Arguments rng {E} s.
Arguments entropy {E} s.

Inductive response : Type :=
| RespError (status : Z) (error : string)
| RespSynth (audio_file : string) (duration : Z) (sampling_rate : Z) (model_used : string)
| RespStream (chunks : pyres (list (list byte))) (x_sample_rate : Z)
| RespFile (content : list byte).

Definition status (r : response) : Z :=
  match r with
  | RespError s _ => s
  | _ => 200
  end.

(** *** [str(uuid.uuid4())] *)

Definition hex_alphabet : list ascii := chars "0123456789abcdef".

Definition hex_digit (d : N) : ascii := nth (N.to_nat d) hex_alphabet "f"%char.

(** ['%0<width>x' % n] for [n < 16^width] *)
Definition hex_chars (n : N) (width : nat) : list ascii :=
  map (fun i => hex_digit ((n / 16 ^ N.of_nat (width - 1 - i)) mod 16)%N) (seq 0 width).

(** [UUID(bytes=..., version=4).int]: variant and version bits forced. *)
Definition uuid4_int (r : N) : N :=
  let i := N.ldiff r (N.shiftl 0xc000 48) in
  let i := N.lor i (N.shiftl 0x8000 48) in
  let i := N.ldiff i (N.shiftl 0xf000 64) in
  N.lor i (N.shiftl 4 76).

Definition uuid_chars (n : N) : list ascii :=
  let h := hex_chars n 32 in
  firstn 8 h ++ ["-"%char] ++ firstn 4 (skipn 8 h) ++ ["-"%char]
  ++ firstn 4 (skipn 12 h) ++ ["-"%char] ++ firstn 4 (skipn 16 h) ++ ["-"%char]
  ++ skipn 20 h.

Definition uuid4 (E : Env) : M (state E) string :=
  fun st =>
    let (r, en) := urandom16 E (entropy st) in
    (Ok (str (uuid_chars (uuid4_int r))),
     {| fs := fs st; rng := rng st; entropy := en |}).

(** *** numpy *)

(** [np.linspace(start, stop, num, False)]: [num] points [start + i*step]
    with [step = (stop - start) / num]; a negative [num] is refused. *)
Definition np_linspace (start stop : Q) (num : Z) : pyres (list Q) :=
  if (num <? 0)%Z then Raise "Number of samples must be non-negative."
  else
    let step := fdiv64 (RN 53 (stop - start)) (float_of_int num) in
    Ok (map (fun i => fadd64 (fmul64 (float_of_int (Z.of_nat i)) step) start)
            (seq 0 (Z.to_nat num))).

(** [torchaudio.save(path, tensor, rate)] *)
Definition torchaudio_save (E : Env) (now : Q) (path : string) (samples : list Q) (rate : Z)
  : M (state E) unit :=
  fun st =>
    (Ok tt,
     {| fs := write_file (fs st) path (wav_encode E samples rate) now;
        rng := rng st; entropy := entropy st |}).

(** The call of lines 107-111 and 194-198, on the generator state. *)
Definition model_generate (E : Env) (m : Model E) (input_ids prompt_input_ids : Ids E)
  : M (state E) (list Q) :=
  fun st =>
    let (r, g') := generate E m input_ids prompt_input_ids (ones_like E input_ids) (rng st) in
    (r, {| fs := fs st; rng := g'; entropy := entropy st |}).

(** Using a global that is still [None]: calling it, or asking it for
    [generate]. *)
Definition the {A} (o : option A) (complaint : string) : pyres A :=
  match o with
  | Some a => Ok a
  | None => Raise complaint
  end.

Definition not_callable : string := "'NoneType' object is not callable".
Definition no_generate : string := "'NoneType' object has no attribute 'generate'".

(** *** [POST /api/tts] *)

Definition default_style : json := JStr (u "A clear, friendly voice speaks naturally.").

(** Lines 125-131 and 216-220: the placeholder tone for [text]. *)
Definition fallback_tone (E : Env) (text : json) : pyres (list Q) :=
  match split_method text with
  | Raise e => Raise e
  | Ok words =>
      let duration := fmul64 (float_of_int (len words)) (lit (1 # 2)) in
      let samples := py_int (fmul64 duration (float_of_int SAMPLING_RATE)) in
      let frequency := 440%Z in
      match np_linspace 0 duration samples with
      | Raise e => Raise e
      | Ok t =>
          Ok (map (fun x =>
                     fmul64 (np_sin E (fmul64 (fmul64 (float_of_int (frequency * 2)) np_pi) x))
                            (lit (3 # 10))) t)
      end
  end.

(** The body of the [try] of lines 81-151. *)
Definition text_to_speech_body (E : Env) (g : globals E) (now : Q) (req : pyres json)
  : M (state E) response :=
  let! data := lift req in
  let! d := lift (as_dict data) in
  let text := dict_get d "text" (JStr []) in
  let language := dict_get d "language" (JStr (u "en")) in
  let style := dict_get d "style" default_style in
  if negb (truthy text) then ret (RespError 400 "No text provided")
  else
    let! audio_id := uuid4 E in
    let audio_filename := audio_id +:+ ".wav" in
    let audio_path := os_path_join AUDIO_DIR audio_filename in
    let! audio_arr :=
      (if MODEL_LOADED g then
         let! tok := lift (the (tokenizer g) not_callable) in
         let! input_ids := lift (tokenize E tok style (device E)) in
         let! prompt_input_ids := lift (tokenize E tok text (device E)) in
         let! m := lift (the (model g) no_generate) in
         let! audio_arr := model_generate E m input_ids prompt_input_ids in
         let! _ := torchaudio_save E now audio_path audio_arr SAMPLING_RATE in
         ret audio_arr
       else
         let! audio_arr := lift (fallback_tone E text) in
         let! _ := torchaudio_save E now audio_path (map to_float32 audio_arr) SAMPLING_RATE in
         ret audio_arr) in
    let duration_ms :=
      py_int (fmul64 (py_truediv (len audio_arr) SAMPLING_RATE) (float_of_int 1000)) in
    let audio_url := "/audio/" +:+ audio_filename in
    ret (RespSynth audio_url duration_ms SAMPLING_RATE
           (if MODEL_LOADED g then "parler-tts" else "fallback")).

(** [text_to_speech()]: the body, and the handler of line 153. *)
Definition text_to_speech (E : Env) (g : globals E) (now : Q) (req : pyres json)
  (st : state E) : response * state E :=
  match text_to_speech_body E g now req st with
  | (Ok r, st') => (r, st')
  | (Raise e, st') => (RespError 500 e, st')
  end.

(** *** [POST /api/tts_stream] *)

(** Lines 203-208 and 222-226: the array cut every 4096 samples, each cut
    scaled by 32767 at the array's own precision ([mul]), cast to int16
    and serialised. *)
Definition pcm_chunks (mul : Q -> Q -> Q) (audio_arr : list Q) : list (list byte) :=
  let chunk_size := 4096%Z in
  map (fun i =>
         let chunk := py_slice audio_arr i (i + chunk_size) in
         tobytes (map (fun x => astype_int16 (mul x 32767%Q)) chunk))
      (py_range 0 (len audio_arr) chunk_size).

(** The generator of lines 179-226, run to exhaustion: the chunks it
    yields, or the exception that ends it. *)
Definition generate_audio_stream (E : Env) (g : globals E) (text style : json)
  : M (state E) (list (list byte)) :=
  if MODEL_LOADED g then
    let! tok := lift (the (tokenizer g) not_callable) in
    let! input_ids := lift (tokenize E tok style (device E)) in
    let! prompt_input_ids := lift (tokenize E tok text (device E)) in
    fun st =>
      match (let! m := lift (the (model g) no_generate) in
             model_generate E m input_ids prompt_input_ids) st with
      | (Ok audio_arr, st') => (Ok (pcm_chunks fmul32 audio_arr), st')
      | (Raise _, st') => (Ok [[]], st')
      end
  else
    let! audio_arr := lift (fallback_tone E text) in
    ret (pcm_chunks fmul64 audio_arr).

Definition text_to_speech_stream_body (E : Env) (g : globals E) (req : pyres json)
  : M (state E) response :=
  let! data := lift req in
  let! d := lift (as_dict data) in
  let text := dict_get d "text" (JStr []) in
  let style := dict_get d "style" default_style in
  if negb (truthy text) then ret (RespError 400 "No text provided")
  else
    fun st =>
      let (chunks, st') := generate_audio_stream E g text style st in
      (Ok (RespStream chunks SAMPLING_RATE), st').

Definition text_to_speech_stream (E : Env) (g : globals E) (req : pyres json)
  (st : state E) : response * state E :=
  match text_to_speech_stream_body E g req st with
  | (Ok r, st') => (r, st')
  | (Raise e, st') => (RespError 500 e, st')
  end.

(** *** [GET /audio/<filename>] *)

(** [send_file(path)]: opening a directory raises. *)
Definition send_file (fs : gmap string node) (path : string) : pyres (list byte) :=
  match fs !! resolve path with
  | Some (File c _) => Ok c
  | Some Dir => Raise "[Errno 21] Is a directory"
  | None => Raise "[Errno 2] No such file or directory"
  end.

Definition serve_audio (E : Env) (filename : string) (st : state E) : response * state E :=
  let audio_path := os_path_join AUDIO_DIR filename in
  (if os_path_exists (fs st) audio_path then
     match send_file (fs st) audio_path with
     | Ok c => RespFile c
     | Raise e => RespError 500 e
     end
   else RespError 404 "Audio file not found",
   st).

(** The names the route [/audio/<filename>] binds: one non-empty path
    segment. *)
Definition route_filename (f : string) : Prop :=
  f <> ""%string /\ no_slash (chars f) = true.

(** *** The hourly sweep *)

Definition sweep_one (current_time : Q) (fs : gmap string node) (filename : string)
  : gmap string node :=
  let filepath := os_path_join AUDIO_DIR filename in
  if os_path_isfile fs filepath then
    let file_age := RN 53 (current_time - os_path_getmtime fs filepath) in
    if Qle_bool file_age 3600 then fs else os_remove fs filepath
  else fs.

Definition cleanup_old_files (E : Env) (now : Q) (st : state E) : state E :=
  {| fs := fold_left (sweep_one now) (os_listdir (fs st) AUDIO_DIR) (fs st);
     rng := rng st; entropy := entropy st |}.

(** *** Runs of the service *)

Inductive request : Type :=
| Synthesize (body : pyres json)
| SynthesizeStream (body : pyres json)
| Audio (filename : string)
| Sweep.

(** One event at time [now]; the sweep answers nobody. *)
Definition handle (E : Env) (g : globals E) (now : Q) (r : request) (st : state E)
  : list response * state E :=
  match r with
  | Synthesize body => let (resp, st') := text_to_speech E g now body st in ([resp], st')
  | SynthesizeStream body => let (resp, st') := text_to_speech_stream E g body st in ([resp], st')
  | Audio f => let (resp, st') := serve_audio E f st in ([resp], st')
  | Sweep => ([], cleanup_old_files E now st)
  end.

Fixpoint run (E : Env) (g : globals E) (evs : list (Q * request)) (st : state E)
  : list response * state E :=
  match evs with
  | [] => ([], st)
  | (now, r) :: evs' =>
      let (out, st') := handle E g now r st in
      let (outs, st'') := run E g evs' st' in
      (out ++ outs, st'')
  end.

(** [f] was handed out by a synthesize call among the responses [rs]. *)
Definition produced (rs : list response) (f : string) : Prop :=
  exists d r m, In (RespSynth ("/audio/" +:+ f) d r m) rs.

(** *** Notions the statements of Part II use *)

(** The request's [text] is missing or is an empty value. *)
Definition text_empty_or_absent (d : gmap string json) : Prop :=
  match d !! "text"%string with
  | None => True
  | Some v => truthy v = false
  end.

(** The sample count of line 126. *)
Definition tone_samples (words : Z) : Z :=
  py_int (fmul64 (fmul64 (float_of_int words) (lit (1 # 2))) (float_of_int SAMPLING_RATE)).

(** The name line 92 builds from the state's entropy. *)
Definition next_filename (E : Env) (st : state E) : string :=
  str (uuid_chars (uuid4_int (fst (urandom16 E (entropy st))))) +:+ ".wav".

(** Line 141. *)
Definition duration_ms_of (audio_arr : list Q) : Z :=
  py_int (fmul64 (py_truediv (len audio_arr) SAMPLING_RATE) (float_of_int 1000)).

(** The state after a successful synthesize call that saved [samples]. *)
Definition after_save (E : Env) (now : Q) (st : state E) (samples : list Q) (g' : Rng E)
  : state E :=
  {| fs := write_file (fs st) (os_path_join AUDIO_DIR (next_filename E st))
             (wav_encode E samples SAMPLING_RATE) now;
     rng := g';
     entropy := snd (urandom16 E (entropy st)) |}.

(** The generation call of [text_to_speech] (lines 95-131, the save left
    out), as a function of the generator state: the model's waveform, or
    the placeholder tone. *)
Definition generation (E : Env) (g : globals E) (text style : json) (r : Rng E)
  : pyres (list Q) * Rng E :=
  if MODEL_LOADED g then
    match the (tokenizer g) not_callable with
    | Raise e => (Raise e, r)
    | Ok tok =>
        match tokenize E tok style (device E) with
        | Raise e => (Raise e, r)
        | Ok input_ids =>
            match tokenize E tok text (device E) with
            | Raise e => (Raise e, r)
            | Ok prompt_input_ids =>
                match the (model g) no_generate with
                | Raise e => (Raise e, r)
                | Ok m =>
                    generate E m input_ids prompt_input_ids (ones_like E input_ids) r
                end
            end
        end
    end
  else (fallback_tone E text, r).

(** A whole signal as 16-bit PCM bytes. *)
Definition pcm16 (mul : Q -> Q -> Q) (signal : list Q) : list byte :=
  tobytes (map (fun x => astype_int16 (mul x 32767%Q)) signal).

(** A list cut into consecutive pieces of [n] elements, the last one
    shorter when [n] does not divide the length. *)
Fixpoint chunks_aux {A} (fuel n : nat) (l : list A) : list (list A) :=
  match fuel with
  | O => []
  | S fuel' =>
      match l with
      | [] => []
      | _ => firstn n l :: chunks_aux fuel' n (skipn n l)
      end
  end.

Definition chunks_of {A} (n : nat) (l : list A) : list (list A) :=
  chunks_aux (length l) n l.

(** The number of steps of [range(0, n, c)]. *)
Definition steps (c n : nat) : nat :=
  Z.to_nat ((Z.of_nat n - 0 + Z.of_nat c - 1) / Z.of_nat c).

(** The multiplication at the precision of the array being streamed. *)
Definition stream_mul (E : Env) (g : globals E) : Q -> Q -> Q :=
  if MODEL_LOADED g then fmul32 else fmul64.

(** What [text_to_speech] hands to [torchaudio.save]: the model's float32
    waveform as it is, the float64 tone after [.float()]. *)
Definition saved_samples (E : Env) (g : globals E) (arr : list Q) : list Q :=
  if MODEL_LOADED g then arr else map to_float32 arr.

(** A name of the route other than the two directory self-references. *)
Definition proper_name (f : string) : Prop :=
  route_filename f /\ f <> "."%string /\ f <> ".."%string.

(** Nothing exists under the audio directory. *)
Definition audio_dir_empty (fs : gmap string node) : Prop :=
  forall name, fs !! (AUDIO_DIR +:+ "/" +:+ name) = None.

(** The property "a name no synthesize call produced is answered 404",
    over every run from every initial state. *)
Definition unknown_names_get_404 (E : Env) (g : globals E) : Prop :=
  forall (st0 : state E) (evs : list (Q * request)) (f : string),
    route_filename f ->
    ~ produced (fst (run E g evs st0)) f ->
    status (fst (serve_audio E f (snd (run E g evs st0)))) = 404%Z.

(** Every entry under the audio directory bears a name that a synthesize
    call among [rs] handed out. *)
Definition only_produced (rs : list response) (fs0 : gmap string node) : Prop :=
  forall name, fs0 !! (AUDIO_DIR +:+ "/" +:+ name) <> None -> produced rs name.

End TTS.

(* ================================================================= *)
(** ** The voice-activity service ([vad-service/app.py]) *)

Module VAD.
Import Py.

Definition SAMPLING_RATE : Z := 16000.
Definition THRESHOLD : Q := lit (1 # 2).

(** One entry of the list [get_speech_timestamps] returns:
    [{'start': s, 'end': e}], in samples. *)
Record segment : Type := { seg_start : Z; seg_end : Z }.

(** One entry of the response's [timestamps], in seconds. *)
Record timestamp : Type := { ts_start : Q; ts_end : Q }.

(** What the service calls and does not define. *)
Record Env : Type := {
  Tensor : Type;
  MState : Type;                  (* the Silero model with its recurrent state *)
  Entropy : Type;
  (* [read_audio] on the bytes of the file, at a sampling rate *)
  decode_audio : list byte -> Z -> pyres Tensor;
  (* [get_speech_timestamps(wav, model, threshold=, sampling_rate=,
      min_speech_duration_ms=, min_silence_duration_ms=,
      window_size_samples=, speech_pad_ms=)] *)
  get_speech_timestamps :
    Tensor -> Q -> Z -> Z -> Z -> Z -> Z -> MState -> pyres (list segment) * MState;
  (* [model(x, sr).item()] *)
  model_eval : Tensor -> Z -> MState -> pyres Q * MState;
  (* [wav[a:b]] *)
  tensor_slice : Tensor -> Z -> Z -> Tensor;
  (* [torch.from_numpy] on a float32 array *)
  from_numpy : list Q -> Tensor;
  np_mean : list Q -> Q;
  (* the path [NamedTemporaryFile(delete=False, suffix='.wav')] creates *)
  temp_name : Entropy -> string * Entropy
}.

(** The files on disk, the model, the entropy pool, and the arguments of
    the handlers' own evaluations of the model (lines 92 and 150), oldest
    first. *)
Record state (E : Env) : Type := {
  fs : gmap string (list byte);
  mstate : MState E;
  entropy : Entropy E;
  model_calls : list (Tensor E)
}.
Arguments fs {E} s.
Arguments mstate {E} s.
Arguments entropy {E} s.
Arguments model_calls {E} s.

(** [request.files] and [request.data]. *)
Record request : Type := {
  files : gmap string (list byte);
  data : list byte
}.

Inductive response : Type :=
| RespError (status : Z) (error : string)
| RespDetect (has_speech : bool) (timestamps : list timestamp) (confidence : Q)
             (num_segments : Z)
| RespChunk (is_speech : bool) (probability : Q) (threshold : Q)
| RespNotImplemented (error : string) (message : string).

Definition status (r : response) : Z :=
  match r with
  | RespError s _ => s
  | RespNotImplemented _ _ => 501
  | _ => 200
  end.

(** *** Effects *)

Definition named_temporary_file (E : Env) : M (state E) string :=
  fun st =>
    let (p, en) := temp_name E (entropy st) in
    (Ok p, {| fs := <[p := []]> (fs st); mstate := mstate st; entropy := en;
              model_calls := model_calls st |}).

(** [audio_file.save(path)] *)
Definition save_upload (E : Env) (content : list byte) (path : string) : M (state E) unit :=
  fun st =>
    (Ok tt, {| fs := <[path := content]> (fs st); mstate := mstate st;
               entropy := entropy st; model_calls := model_calls st |}).

Definition read_audio (E : Env) (path : string) (sampling_rate : Z) : M (state E) (Tensor E) :=
  fun st =>
    (match fs st !! path with
     | Some bytes => decode_audio E bytes sampling_rate
     | None => Raise "No such file or directory"
     end, st).

(** Lines 73-82. *)
Definition segmentation_pass (E : Env) (wav : Tensor E) : M (state E) (list segment) :=
  fun st =>
    let (r, ms) :=
      get_speech_timestamps E wav THRESHOLD SAMPLING_RATE 250 100 512 30 (mstate st) in
    (r, {| fs := fs st; mstate := ms; entropy := entropy st;
           model_calls := model_calls st |}).

(** [model(x, SAMPLING_RATE).item()] as the handlers call it. *)
Definition call_model (E : Env) (x : Tensor E) (sr : Z) : M (state E) Q :=
  fun st =>
    let (r, ms) := model_eval E x sr (mstate st) in
    (r, {| fs := fs st; mstate := ms; entropy := entropy st;
           model_calls := model_calls st ++ [x] |}).

(** [os.path.exists(p)] and [os.unlink(p)] of lines 115-116. *)
Definition remove_if_exists (E : Env) (p : string) (st : state E) : state E :=
  match fs st !! p with
  | Some _ => {| fs := delete p (fs st); mstate := mstate st; entropy := entropy st;
                 model_calls := model_calls st |}
  | None => st
  end.

(** *** [POST /api/detect] *)

(** The loop of lines 90-93. *)
Fixpoint score_segments (E : Env) (wav : Tensor E) (segs : list segment)
  : M (state E) (list Q) :=
  match segs with
  | [] => ret []
  | segment :: rest =>
      let segment_audio := tensor_slice E wav (seg_start segment) (seg_end segment) in
      let! speech_prob := call_model E segment_audio SAMPLING_RATE in
      let! speech_probs := score_segments E wav rest in
      ret (speech_prob :: speech_probs)
  end.

(** Lines 98-104. *)
Definition to_seconds (ts : segment) : timestamp :=
  {| ts_start := py_truediv (seg_start ts) SAMPLING_RATE;
     ts_end := py_truediv (seg_end ts) SAMPLING_RATE |}.

(** The inner [try] of lines 68-111. *)
Definition detect_speech_try (E : Env) (tmp_path : string) : M (state E) response :=
  let! wav := read_audio E tmp_path SAMPLING_RATE in
  let! speech_timestamps := segmentation_pass E wav in
  let has_speech := (0 <? len speech_timestamps)%Z in
  let! speech_probs :=
    (if has_speech then score_segments E wav speech_timestamps else ret []) in
  let avg_confidence :=
    match speech_probs with
    | [] => 0%Q
    | _ => np_mean E speech_probs
    end in
  let timestamps_seconds := map to_seconds speech_timestamps in
  ret (RespDetect has_speech timestamps_seconds avg_confidence (len speech_timestamps)).

(** The outer [try] of lines 56-116. *)
Definition detect_speech_body (E : Env) (req : request) : M (state E) response :=
  match files req !! "file"%string with
  | None => ret (RespError 400 "No file provided")
  | Some audio_file =>
      let! tmp_path := named_temporary_file E in
      let! _ := save_upload E audio_file tmp_path in
      finally (detect_speech_try E tmp_path) (remove_if_exists E tmp_path)
  end.

Definition detect_speech (E : Env) (req : request) (st : state E) : response * state E :=
  match detect_speech_body E req st with
  | (Ok r, st') => (r, st')
  | (Raise e, st') => (RespError 500 e, st')
  end.

(** *** [POST /api/detect_stream] *)

(** Line 146: int16 samples, as float32, over 32768. *)
Definition normalize (v : Z) : Q := fdiv32 (to_float32 (inject_Z v)) 32768.

Definition detect_stream_body (E : Env) (req : request) : M (state E) response :=
  let audio_bytes :=
    match files req !! "file"%string with
    | Some audio_file => audio_file
    | None => data req
    end in
  let! samples := lift (np_frombuffer_int16 audio_bytes) in
  let audio_array := map normalize samples in
  let wav := from_numpy E audio_array in
  let! speech_prob := call_model E wav SAMPLING_RATE in
  let is_speech := negb (Qle_bool speech_prob THRESHOLD) in
  ret (RespChunk is_speech speech_prob THRESHOLD).

Definition detect_stream (E : Env) (req : request) (st : state E) : response * state E :=
  match detect_stream_body E req st with
  | (Ok r, st') => (r, st')
  | (Raise e, st') => (RespError 500 e, st')
  end.

(** *** [POST /api/vad_iterator] *)

Definition vad_iterator_endpoint : response :=
  RespNotImplemented "VAD iterator requires WebSocket connection"
                     "Use /api/detect_stream for stateless chunk processing".



(** *** Notions the statements of Part II use *)

(** The state in which the inner [try] of [detect_speech] starts: the
    temporary file exists and holds the upload. *)
Definition persisted (E : Env) (audio_file : list byte) (st : state E) : state E :=
  {| fs := <[fst (temp_name E (entropy st)) := audio_file]>
             (<[fst (temp_name E (entropy st)) := []]> (fs st));
     mstate := mstate st;
     entropy := snd (temp_name E (entropy st));
     model_calls := model_calls st |}.

(** The segmentation pass that a request triggers, when the upload
    decodes: its waveform, the segments it returns and the model it
    leaves. *)
Definition segmentation_of (E : Env) (req : request) (st : state E)
  (wav : Tensor E) (segs : list segment) (ms' : MState E) : Prop :=
  exists audio_file,
    files req !! "file"%string = Some audio_file
    /\ decode_audio E audio_file SAMPLING_RATE = Ok wav
    /\ get_speech_timestamps E wav THRESHOLD SAMPLING_RATE 250 100 512 30 (mstate st)
       = (Ok segs, ms').

End VAD.

(* ================================================================= *)
(** ** A concrete environment, to run the definitions on *)

Module Demo.
Import Py FS.

(** A stand-in for Parler-TTS: tokens are code points, the waveform has
    one sample per token of the prompt, the sine is flat. *)
Definition tts_env : TTS.Env :=
  {| TTS.Model := unit;
     TTS.Tokenizer := unit;
     TTS.Ids := pystr;
     TTS.Rng := N;
     TTS.Entropy := N;
     TTS.import_parler_tts := Ok tt;
     TTS.model_from_pretrained := fun _ => Ok tt;
     TTS.tokenizer_from_pretrained := fun _ => Ok tt;
     TTS.cuda_is_available := false;
     TTS.model_to := fun m _ => Ok m;
     TTS.tokenize := fun _ v _ =>
       match v with
       | JStr s => Ok s
       | _ => Raise "text input must be of type str"
       end;
     TTS.ones_like := map (fun _ => 1%N);
     TTS.generate := fun _ _ prompt _ r =>
       (Ok (map (fun c => to_float32 (inject_Z (Z.of_N c mod 100) / 128)) prompt),
        (r + 1)%N);
     TTS.np_sin := fun _ => 0%Q;
     TTS.wav_encode := fun samples _ => TTS.pcm16 fmul32 samples;
     TTS.urandom16 := fun n => (n, (n + 1)%N) |}.

(** The globals when loading failed, and when it went through. *)
Definition tts_fallback : TTS.globals tts_env :=
  {| TTS.MODEL_LOADED := false; TTS.model := None; TTS.tokenizer := None |}.

Definition tts_loaded : TTS.globals tts_env := TTS.load_model tts_env.

(** A fresh audio directory. *)
Definition tts_fresh : TTS.state tts_env :=
  TTS.Build_state tts_env
    {[ "/tmp"%string := Dir; "/tmp/tts_audio"%string := Dir ]} 0%N 0%N.

(** An audio directory in which something else left a file. *)
Definition tts_foreign : TTS.state tts_env :=
  TTS.Build_state tts_env
    (<["/tmp/tts_audio/greeting.wav"%string := File [x52; x49; x46; x46] 0]>
       (TTS.fs tts_fresh))
    0%N 0%N.

Definition hello_request : gmap string json :=
  {[ "text"%string := JStr (u "hello brave new world");
     "language"%string := JStr (u "hr") ]}.

Definition empty_request : gmap string json :=
  {[ "text"%string := JStr []; "style"%string := JStr (u "A calm voice.") ]}.

(** A stand-in for Silero: a waveform is its samples, speech is any
    non-zero sample, and one segment spans the whole waveform. *)
Definition loud (wav : list Q) : bool := existsb (fun x => negb (Qeq_bool x 0)) wav.

Definition vad_env : VAD.Env :=
  {| VAD.Tensor := list Q;
     VAD.MState := nat;
     VAD.Entropy := N;
     VAD.decode_audio := fun bytes _ =>
       match np_frombuffer_int16 bytes with
       | Ok v => Ok (map VAD.normalize v)
       | Raise e => Raise e
       end;
     VAD.get_speech_timestamps := fun wav _ _ _ _ _ _ ms =>
       (Ok (if loud wav
            then [ {| VAD.seg_start := 0; VAD.seg_end := len wav |} ]
            else []),
        S ms);
     VAD.model_eval := fun x _ ms => (Ok (if loud x then 9 # 10 else 1 # 10)%Q, S ms);
     VAD.tensor_slice := fun wav a b => py_slice wav a b;
     VAD.from_numpy := fun l => l;
     VAD.np_mean := fun l => RN 53 (fold_right Qplus 0%Q l / inject_Z (len l));
     VAD.temp_name := fun n => ("/tmp/tmpk3x9a2bq.wav"%string, (n + 1)%N) |}.

Definition vad_fresh : VAD.state vad_env := VAD.Build_state vad_env ∅ 0%nat 0%N [].

(** An upload of two silent samples, one of two loud samples, and a raw
    body of three bytes. *)
Definition silent_upload : VAD.request :=
  {| VAD.files := {[ "file"%string := [x00; x00; x00; x00] ]}; VAD.data := [] |}.

Definition loud_upload : VAD.request :=
  {| VAD.files := {[ "file"%string := [x00; x40; x00; xc0] ]}; VAD.data := [] |}.

Definition odd_body : VAD.request :=
  {| VAD.files := ∅; VAD.data := [x00; x40; x00] |}.

Definition even_body : VAD.request :=
  {| VAD.files := ∅; VAD.data := [x00; x40; xff; x7f] |}.

(** A Parler-TTS whose [generate] always raises. *)
Definition tts_broken_env : TTS.Env :=
  {| TTS.Model := unit;
     TTS.Tokenizer := unit;
     TTS.Ids := pystr;
     TTS.Rng := N;
     TTS.Entropy := N;
     TTS.import_parler_tts := Ok tt;
     TTS.model_from_pretrained := fun _ => Ok tt;
     TTS.tokenizer_from_pretrained := fun _ => Ok tt;
     TTS.cuda_is_available := false;
     TTS.model_to := fun m _ => Ok m;
     TTS.tokenize := fun _ v _ =>
       match v with
       | JStr s => Ok s
       | _ => Raise "text input must be of type str"
       end;
     TTS.ones_like := map (fun _ => 1%N);
     TTS.generate := fun _ _ _ _ r => (Raise "CUDA out of memory", (r + 1)%N);
     TTS.np_sin := fun _ => 0%Q;
     TTS.wav_encode := fun samples _ => TTS.pcm16 fmul32 samples;
     TTS.urandom16 := fun n => (n, (n + 1)%N) |}.

Definition tts_broken_loaded : TTS.globals tts_broken_env := TTS.load_model tts_broken_env.

Definition tts_broken_fresh : TTS.state tts_broken_env :=
  TTS.Build_state tts_broken_env
    {[ "/tmp"%string := Dir; "/tmp/tts_audio"%string := Dir ]} 0%N 0%N.

(** Requests with a number for text, a number for style, and blanks for
    text. *)
Definition number_request : gmap string json := {[ "text"%string := JInt 5 ]}.

Definition number_style_request : gmap string json :=
  {[ "text"%string := JStr (u "hi"); "style"%string := JInt 7 ]}.

Definition blank_request : gmap string json := {[ "text"%string := JStr [32; 9; 32]%N ]}.

(** A Silero that refuses every direct evaluation. *)
Definition vad_deaf_env : VAD.Env :=
  {| VAD.Tensor := list Q;
     VAD.MState := nat;
     VAD.Entropy := N;
     VAD.decode_audio := fun bytes _ =>
       match np_frombuffer_int16 bytes with
       | Ok v => Ok (map VAD.normalize v)
       | Raise e => Raise e
       end;
     VAD.get_speech_timestamps := fun wav _ _ _ _ _ _ ms =>
       (Ok (if loud wav
            then [ {| VAD.seg_start := 0; VAD.seg_end := len wav |} ]
            else []),
        S ms);
     VAD.model_eval := fun _ _ ms => (Raise "Provided number of samples is not supported", ms);
     VAD.tensor_slice := fun wav a b => py_slice wav a b;
     VAD.from_numpy := fun l => l;
     VAD.np_mean := fun l => RN 53 (fold_right Qplus 0%Q l / inject_Z (len l));
     VAD.temp_name := fun n => ("/tmp/tmpk3x9a2bq.wav"%string, (n + 1)%N) |}.

Definition vad_deaf_fresh : VAD.state vad_deaf_env := VAD.Build_state vad_deaf_env ∅ 0%nat 0%N [].

(** A request with no file field, and a disk that already holds a file. *)
Definition no_file_request : VAD.request := {| VAD.files := ∅; VAD.data := [] |}.

Definition vad_busy : VAD.state vad_env :=
  VAD.Build_state vad_env {[ "/srv/notes.txt"%string := [x68; x69] ]} 0%nat 0%N [].

End Demo.

(* ================================================================= *)
(** * Part II: lemmas and theorems *)
(* ================================================================= *)

(** ** Rounding to nearest *)

Module Rounding.
Import Py.
#[local] Open Scope Q_scope.

Lemma pow2_pos e : 0 < pow2 e.
Proof. apply Qpower_0_lt. reflexivity. Qed.

Lemma pow2_add a b : pow2 (a + b) == pow2 a * pow2 b.
Proof. apply Qpower_plus. discriminate. Qed.

Lemma pow2_sub a b : pow2 (a - b) == pow2 a / pow2 b.
Proof. apply Qpower_minus. discriminate. Qed.

Lemma pow2_le a b : (a <= b)%Z -> pow2 a <= pow2 b.
Proof. intros. apply Qpower_le_compat_l; [assumption | discriminate]. Qed.

Lemma pow2_lt a b : (a < b)%Z -> pow2 a < pow2 b.
Proof. intros. apply Qpower_lt_compat_l; [assumption | reflexivity]. Qed.

Lemma pow2_Z k : (0 <= k)%Z -> pow2 k == inject_Z (2 ^ k).
Proof. intros. unfold pow2. rewrite Zpower_Qpower by assumption. reflexivity. Qed.

Lemma pow2_succ a : pow2 (a + 1) == 2 * pow2 a.
Proof. rewrite pow2_add. change (pow2 1) with 2. ring. Qed.

Lemma ilog2_spec x : 0 < x -> pow2 (ilog2 x) <= x /\ x < pow2 (ilog2 x + 1).
Proof.
  intros Hx. unfold ilog2.
  destruct x as [a b]. cbn [Qnum Qden].
  assert (Ha : (0 < a)%Z) by (unfold Qlt in Hx; cbn in Hx; lia).
  pose proof (Z.log2_spec a Ha) as [Ha1 Ha2].
  pose proof (Z.log2_spec (Zpos b) eq_refl) as [Hb1 Hb2].
  pose proof (Z.log2_nonneg a) as Hla. pose proof (Z.log2_nonneg (Zpos b)) as Hlb.
  set (la := Z.log2 a) in *. set (lb := Z.log2 (Zpos b)) in *.
  assert (Hx' : a # b == inject_Z a / inject_Z (Zpos b)) by apply Qmake_Qdiv.
  assert (HA1 : pow2 la <= inject_Z a) by (rewrite pow2_Z by lia; rewrite <- Zle_Qle; exact Ha1).
  assert (HA2 : inject_Z a < pow2 (la + 1)) by (rewrite pow2_Z by lia; rewrite <- Zlt_Qlt; exact Ha2).
  assert (HB1 : pow2 lb <= inject_Z (Zpos b)) by (rewrite pow2_Z by lia; rewrite <- Zle_Qle; exact Hb1).
  assert (HB2 : inject_Z (Zpos b) < pow2 (lb + 1)) by (rewrite pow2_Z by lia; rewrite <- Zlt_Qlt; exact Hb2).
  assert (Hbpos : 0 < inject_Z (Zpos b)) by (rewrite <- (Zlt_Qlt 0); lia).
  set (B := inject_Z (Zpos b)) in *. set (A := inject_Z a) in *.
  assert (Hxb : (a # b) * B == A) by (rewrite Hx'; field; lra).
  set (x := a # b) in *. clearbody x A B.
  pose proof (pow2_pos lb) as Plb. pose proof (pow2_pos la) as Pla.
  pose proof (pow2_pos (la - lb)) as Pd.
  assert (Hd : pow2 (la - lb) * pow2 lb == pow2 la).
  { rewrite <- pow2_add. replace (la - lb + lb)%Z with la by lia. reflexivity. }
  assert (Hup : x < pow2 (la - lb + 1)).
  { rewrite pow2_succ. rewrite pow2_succ in HA2.
    apply Qmult_lt_r with (z := pow2 lb); [exact Plb|]. nra. }
  assert (Hlo : pow2 (la - lb - 1) <= x).
  { assert (E : 2 * pow2 (la - lb - 1) == pow2 (la - lb)).
    { rewrite <- pow2_succ. replace (la - lb - 1 + 1)%Z with (la - lb)%Z by lia. reflexivity. }
    rewrite pow2_succ in HB2.
    apply Qmult_le_r with (z := B); [exact Hbpos|]. nra. }
  destruct (Qle_bool (pow2 (la - lb)) x) eqn:E.
  - apply Qle_bool_iff in E. split; assumption.
  - split; [exact Hlo|].
    replace (la - lb - 1 + 1)%Z with (la - lb)%Z by lia.
    apply Qnot_le_lt. intro C. apply Qle_bool_iff in C. congruence.
Qed.

Lemma ilog2_unique x e : pow2 e <= x -> x < pow2 (e + 1) -> ilog2 x = e.
Proof.
  intros H1 H2.
  assert (Hx : 0 < x) by (pose proof (pow2_pos e); lra).
  destruct (ilog2_spec x Hx) as [H3 H4].
  destruct (Z.lt_trichotomy (ilog2 x) e) as [C|[C|C]]; [|assumption|].
  - assert (pow2 (ilog2 x + 1) <= pow2 e) by (apply pow2_le; lia). lra.
  - assert (pow2 (e + 1) <= pow2 (ilog2 x)) by (apply pow2_le; lia). lra.
Qed.

Lemma rhe_comp x y : x == y -> round_half_even x = round_half_even y.
Proof.
  intros E. unfold round_half_even. rewrite (Qfloor_comp _ _ E).
  assert (E2 : x - inject_Z (Qfloor y) == y - inject_Z (Qfloor y)) by (rewrite E; reflexivity).
  rewrite (Qcompare_comp _ _ E2 (1#2) (1#2) (Qeq_refl _)). reflexivity.
Qed.

Lemma rhe_Z k : round_half_even (inject_Z k) = k.
Proof.
  unfold round_half_even. rewrite Qfloor_Z.
  destruct (Qcompare_spec (inject_Z k - inject_Z k) (1#2)) as [E|E|E]; try lra. reflexivity.
Qed.

Lemma rhe_floor m : (Qfloor m <= round_half_even m <= Qfloor m + 1)%Z.
Proof.
  unfold round_half_even.
  destruct (Qcompare (m - inject_Z (Qfloor m)) (1#2)); [destruct (Z.even _)| |]; lia.
Qed.

Lemma rhe_ge m k : inject_Z k <= m -> (k <= round_half_even m)%Z.
Proof.
  intros H. pose proof (rhe_floor m). pose proof (Qfloor_resp_le _ _ H) as F.
  rewrite Qfloor_Z in F. lia.
Qed.

Lemma rhe_le m k : m <= inject_Z k -> (round_half_even m <= k)%Z.
Proof.
  intros H. destruct (Qlt_le_dec m (inject_Z k)) as [L|G].
  - pose proof (rhe_floor m). pose proof (Qfloor_le m).
    assert (inject_Z (Qfloor m) < inject_Z k) by lra.
    rewrite <- Zlt_Qlt in *. lia.
  - assert (E : m == inject_Z k) by lra. rewrite (rhe_comp _ _ E), rhe_Z. lia.
Qed.

Lemma rhe_mono x y : x <= y -> (round_half_even x <= round_half_even y)%Z.
Proof.
  intros H. pose proof (Qfloor_resp_le _ _ H) as F.
  pose proof (rhe_floor x) as Bx. pose proof (rhe_floor y) as By.
  destruct (Z.eq_dec (Qfloor x) (Qfloor y)) as [E|NE]; [|lia].
  unfold round_half_even in *. rewrite E in *.
  destruct (Qcompare_spec (x - inject_Z (Qfloor y)) (1#2)),
           (Qcompare_spec (y - inject_Z (Qfloor y)) (1#2));
    try destruct (Z.even (Qfloor y)); try lia; lra.
Qed.

Lemma ilog2_comp x y : 0 < x -> x == y -> ilog2 x = ilog2 y.
Proof.
  intros Hx E. destruct (ilog2_spec x Hx) as [H1 H2].
  symmetry. apply ilog2_unique; rewrite <- E; assumption.
Qed.

Lemma RNpos_comp p x y : 0 < x -> x == y -> RNpos p x == RNpos p y.
Proof.
  intros Hx E. unfold RNpos. rewrite <- (ilog2_comp x y Hx E).
  set (e := (ilog2 x - (p - 1))%Z).
  assert (E2 : x / pow2 e == y / pow2 e) by (rewrite E; reflexivity).
  rewrite (rhe_comp _ _ E2). reflexivity.
Qed.

Lemma RN_comp p x y : x == y -> RN p x == RN p y.
Proof.
  intros E. unfold RN. rewrite <- (Qcompare_comp _ _ E 0 0 (Qeq_refl 0)).
  destruct (Qcompare_spec x 0) as [H|H|H]; [reflexivity| |].
  - apply Qopp_comp. apply RNpos_comp; [lra | rewrite E; reflexivity].
  - apply RNpos_comp; assumption.
Qed.

(* scaled significand lies in [2^(p-1), 2^p) *)
Lemma significand_range p x : 0 < x ->
  pow2 (p - 1) <= x / pow2 (ilog2 x - (p - 1)) /\ x / pow2 (ilog2 x - (p - 1)) < pow2 p.
Proof.
  intros Hx. destruct (ilog2_spec x Hx) as [H1 H2].
  set (l := ilog2 x) in *. pose proof (pow2_pos (l - (p - 1))) as Pe.
  assert (E1 : pow2 (p - 1) * pow2 (l - (p - 1)) == pow2 l).
  { rewrite <- pow2_add. replace (p - 1 + (l - (p - 1)))%Z with l by lia. reflexivity. }
  assert (E2 : pow2 p * pow2 (l - (p - 1)) == pow2 (l + 1)).
  { rewrite <- pow2_add. replace (p + (l - (p - 1)))%Z with (l + 1)%Z by lia. reflexivity. }
  split.
  - apply Qle_shift_div_l; [exact Pe | lra].
  - apply Qlt_shift_div_r; [exact Pe | lra].
Qed.

Lemma RNpos_bounds p x : (0 <= p - 1)%Z -> 0 < x ->
  pow2 (ilog2 x) <= RNpos p x /\ RNpos p x <= pow2 (ilog2 x + 1).
Proof.
  intros Hp Hx. destruct (significand_range p x Hx) as [S1 S2].
  unfold RNpos. set (e := (ilog2 x - (p - 1))%Z) in *.
  pose proof (pow2_pos e) as Pe.
  assert (L : (2 ^ (p - 1) <= round_half_even (x / pow2 e))%Z).
  { apply rhe_ge. rewrite <- pow2_Z by lia. exact S1. }
  assert (U : (round_half_even (x / pow2 e) <= 2 ^ p)%Z).
  { apply rhe_le. rewrite <- pow2_Z by lia. lra. }
  rewrite Zle_Qle in L, U. rewrite <- !pow2_Z in L, U by lia.
  assert (E1 : pow2 (p - 1) * pow2 e == pow2 (ilog2 x)).
  { rewrite <- pow2_add. replace (p - 1 + e)%Z with (ilog2 x) by (unfold e; lia). reflexivity. }
  assert (E2 : pow2 p * pow2 e == pow2 (ilog2 x + 1)).
  { rewrite <- pow2_add. replace (p + e)%Z with (ilog2 x + 1)%Z by (unfold e; lia). reflexivity. }
  split; nra.
Qed.

Lemma ilog2_mono x y : 0 < x -> x <= y -> (ilog2 x <= ilog2 y)%Z.
Proof.
  intros Hx H. destruct (ilog2_spec x Hx) as [H1 _].
  destruct (ilog2_spec y) as [_ H4]; [lra|].
  destruct (Z_le_gt_dec (ilog2 x) (ilog2 y)) as [?|C]; [assumption|].
  assert (pow2 (ilog2 y + 1) <= pow2 (ilog2 x)) by (apply pow2_le; lia). lra.
Qed.

Lemma RNpos_mono p x y : (0 <= p - 1)%Z -> 0 < x -> x <= y -> RNpos p x <= RNpos p y.
Proof.
  intros Hp Hx H. assert (Hy : 0 < y) by lra.
  pose proof (ilog2_mono x y Hx H) as L.
  destruct (Z.eq_dec (ilog2 x) (ilog2 y)) as [E|NE].
  - unfold RNpos. rewrite E. set (e := (ilog2 y - (p - 1))%Z).
    pose proof (pow2_pos e) as Pe.
    assert (M : x / pow2 e <= y / pow2 e).
    { apply Qle_shift_div_l; [exact Pe|]. unfold Qdiv. rewrite <- Qmult_assoc, (Qmult_comm (/ _)), Qmult_inv_r by lra. lra. }
    apply rhe_mono in M. rewrite Zle_Qle in M. nra.
  - destruct (RNpos_bounds p x Hp Hx) as [_ U]. destruct (RNpos_bounds p y Hp Hy) as [Lo _].
    assert (pow2 (ilog2 x + 1) <= pow2 (ilog2 y)) by (apply pow2_le; lia). lra.
Qed.

Lemma RN_mono p x y : (0 <= p - 1)%Z -> x <= y -> RN p x <= RN p y.
Proof.
  intros Hp H. unfold RN.
  destruct (Qcompare_spec x 0) as [Ex|Lx|Gx], (Qcompare_spec y 0) as [Ey|Ly|Gy]; try lra.
  - destruct (RNpos_bounds p y Hp Gy). pose proof (pow2_pos (ilog2 y)). lra.
  - assert (N : 0 < - x) by lra. destruct (RNpos_bounds p (-x) Hp N). pose proof (pow2_pos (ilog2 (-x))). lra.
  - assert (N : 0 < - y) by lra. assert (M : - y <= - x) by lra.
    pose proof (RNpos_mono p (-y) (-x) Hp N M). lra.
  - assert (N : 0 < - x) by lra. destruct (RNpos_bounds p (-x) Hp N). pose proof (pow2_pos (ilog2 (-x))).
    destruct (RNpos_bounds p y Hp Gy). pose proof (pow2_pos (ilog2 y)). lra.
  - apply RNpos_mono; assumption.
Qed.

Lemma RNpos_exact p k j : (0 <= p - 1)%Z -> (0 < k < 2 ^ p)%Z ->
  RNpos p (inject_Z k * pow2 j) == inject_Z k * pow2 j.
Proof.
  intros Hp Hk.
  pose proof (Z.log2_spec k (proj1 Hk)) as [K1 K2]. pose proof (Z.log2_nonneg k) as K0.
  set (l := Z.log2 k) in *.
  assert (Hl : (l <= p - 1)%Z).
  { destruct (Z_le_gt_dec l (p - 1)) as [?|C]; [assumption|].
    assert (2 ^ p <= 2 ^ l)%Z by (apply Z.pow_le_mono_r; lia). lia. }
  pose proof (pow2_pos j) as Pj.
  assert (Q1 : pow2 l <= inject_Z k) by (rewrite pow2_Z by lia; rewrite <- Zle_Qle; exact K1).
  assert (Q2 : inject_Z k < pow2 (l + 1)) by (rewrite pow2_Z by lia; rewrite <- Zlt_Qlt; exact K2).
  assert (IL : ilog2 (inject_Z k * pow2 j) = (l + j)%Z).
  { apply ilog2_unique.
    - rewrite pow2_add. nra.
    - replace (l + j + 1)%Z with (l + 1 + j)%Z by lia. rewrite pow2_add. nra. }
  unfold RNpos. rewrite IL. set (e := (l + j - (p - 1))%Z).
  pose proof (pow2_pos e) as Pe.
  assert (S : inject_Z k * pow2 j / pow2 e == inject_Z (k * 2 ^ (p - 1 - l))).
  { rewrite inject_Z_mult, <- pow2_Z by lia.
    assert (E : pow2 j == pow2 (p - 1 - l) * pow2 e).
    { rewrite <- pow2_add. replace (p - 1 - l + e)%Z with j by (unfold e; lia). reflexivity. }
    rewrite E. field. lra. }
  rewrite (rhe_comp _ _ S), rhe_Z, <- S. field. lra.
Qed.

Lemma RN_exact p k j : (0 <= p - 1)%Z -> (Z.abs k < 2 ^ p)%Z ->
  RN p (inject_Z k * pow2 j) == inject_Z k * pow2 j.
Proof.
  intros Hp Hk. pose proof (pow2_pos j) as Pj. unfold RN.
  destruct (Qcompare_spec (inject_Z k * pow2 j) 0) as [E|L|G].
  - symmetry; exact E.
  - assert (k < 0)%Z.
    { destruct (Z_lt_le_dec k 0) as [?|C]; [assumption|]. rewrite Zle_Qle in C. change (inject_Z 0) with 0 in C. nra. }
    assert (E : - (inject_Z k * pow2 j) == inject_Z (- k) * pow2 j) by (rewrite inject_Z_opp; ring).
    assert (P : 0 < - (inject_Z k * pow2 j)) by lra.
    rewrite (RNpos_comp p _ _ P E), RNpos_exact by lia. rewrite inject_Z_opp. ring.
  - assert (0 < k)%Z.
    { destruct (Z_lt_le_dec 0 k) as [?|C]; [assumption|]. rewrite Zle_Qle in C. change (inject_Z 0) with 0 in C. nra. }
    apply RNpos_exact; lia.
Qed.

#[global] Instance RN_proper p : Proper (Qeq ==> Qeq) (RN p).
Proof. intros x y E. apply RN_comp, E. Qed.

Lemma RN_0 p : RN p 0 = 0.
Proof. reflexivity. Qed.

Lemma RN_nonneg p x : (0 <= p - 1)%Z -> 0 <= x -> 0 <= RN p x.
Proof. intros Hp Hx. rewrite <- (RN_0 p). apply RN_mono; assumption. Qed.

(** An integer below [2^p] is a float of precision [p]. *)
Lemma RN_int p k : (0 <= p - 1)%Z -> (Z.abs k < 2 ^ p)%Z -> RN p (inject_Z k) == inject_Z k.
Proof.
  intros Hp Hk. pose proof (RN_exact p k 0 Hp Hk) as E.
  change (pow2 0) with 1 in E. rewrite Qmult_1_r in E. exact E.
Qed.

(** So is half of one. *)
Lemma RN_half p k : (0 <= p - 1)%Z -> (Z.abs k < 2 ^ p)%Z ->
  RN p (inject_Z k * (1 # 2)) == inject_Z k * (1 # 2).
Proof. intros Hp Hk. exact (RN_exact p k (-1) Hp Hk). Qed.

Lemma py_int_comp x y : x == y -> py_int x = py_int y.
Proof.
  intros E. unfold py_int.
  replace (Qle_bool 0 y) with (Qle_bool 0 x).
  - destruct (Qle_bool 0 x); [apply Qfloor_comp | apply Qceiling_comp]; exact E.
  - destruct (Qle_bool 0 x) eqn:A, (Qle_bool 0 y) eqn:B; try reflexivity.
    + apply Qle_bool_iff in A. rewrite E in A. apply Qle_bool_iff in A. congruence.
    + apply Qle_bool_iff in B. rewrite <- E in B. apply Qle_bool_iff in B. congruence.
Qed.

Lemma py_int_Z k : py_int (inject_Z k) = k.
Proof. unfold py_int. destruct (Qle_bool 0 (inject_Z k)); [apply Qfloor_Z | apply Qceiling_Z]. Qed.

Lemma py_int_nonneg x : 0 <= x -> (0 <= py_int x)%Z.
Proof.
  intros H. unfold py_int. apply Qle_bool_iff in H. rewrite H.
  apply Qle_bool_iff in H. pose proof (Qfloor_resp_le _ _ H) as F.
  exact F.
Qed.

Lemma float_of_int_exact k : (Z.abs k < 2 ^ 53)%Z -> float_of_int k == inject_Z k.
Proof. intros H. apply RN_int; [lia | exact H]. Qed.

Lemma lit_half : lit (1 # 2) == 1 # 2.
Proof. reflexivity. Qed.


End Rounding.

(* ================================================================= *)
(** ** Cutting an array into chunks *)

Module Chunking.
Import Py TTS.

Lemma steps_0 c : (0 < c)%nat -> steps c 0 = 0%nat.
Proof.
  intros Hc. unfold steps.
  rewrite Z.div_small by lia. reflexivity.
Qed.

Lemma steps_S c n : (0 < c)%nat -> (0 < n)%nat -> steps c n = S (steps c (n - c)).
Proof.
  intros Hc Hn. unfold steps.
  destruct (Nat.le_gt_cases n c) as [L|G].
  - replace (n - c)%nat with 0%nat by lia.
    replace ((Z.of_nat 0 - 0 + Z.of_nat c - 1) / Z.of_nat c)%Z with 0%Z
      by (symmetry; apply Z.div_small; lia).
    replace ((Z.of_nat n - 0 + Z.of_nat c - 1) / Z.of_nat c)%Z with 1%Z; [reflexivity|].
    apply (Z.div_unique _ _ 1 (Z.of_nat n - 1)); lia.
  - replace (Z.of_nat n - 0 + Z.of_nat c - 1)%Z
      with ((Z.of_nat (n - c) - 0 + Z.of_nat c - 1) + 1 * Z.of_nat c)%Z by lia.
    rewrite Z.div_add by lia.
    assert (0 <= (Z.of_nat (n - c) - 0 + Z.of_nat c - 1) / Z.of_nat c)%Z
      by (apply Z.div_pos; lia).
    lia.
Qed.

(** The recursive cut and the slices the loop takes are the same. *)
Lemma chunks_aux_slices {A} (c : nat) (Hc : (0 < c)%nat) :
  forall fuel (l : list A), (length l <= fuel)%nat ->
    chunks_aux fuel c l =
    map (fun k => firstn c (skipn (c * k) l)) (seq 0 (steps c (length l))).
Proof.
  induction fuel as [|fuel IH]; intros l Hl.
  - destruct l; [|cbn in Hl; lia]. rewrite steps_0 by exact Hc. reflexivity.
  - destruct l as [|a l'] eqn:El.
    + rewrite steps_0 by exact Hc. reflexivity.
    + rewrite <- El in *. assert (Hpos : (0 < length l)%nat) by (rewrite El; cbn; lia).
      assert (Hcut : chunks_aux (S fuel) c l = firstn c l :: chunks_aux fuel c (skipn c l))
        by (rewrite El; reflexivity).
      rewrite Hcut, IH by (rewrite List.length_skipn; lia).
      rewrite (steps_S c (length l)) by assumption.
      rewrite List.length_skipn. cbn [seq map].
      rewrite Nat.mul_0_r. cbn [skipn]. f_equal.
      rewrite <- List.seq_shift, List.map_map.
      apply List.map_ext. intros k.
      rewrite List.skipn_skipn. f_equal. f_equal. lia.
Qed.

Lemma chunks_of_slices {A} (c : nat) (l : list A) : (0 < c)%nat ->
  chunks_of c l = map (fun k => firstn c (skipn (c * k) l)) (seq 0 (steps c (length l))).
Proof. intros Hc. apply chunks_aux_slices; [exact Hc | lia]. Qed.

Lemma concat_chunks_aux {A} (c : nat) (Hc : (0 < c)%nat) :
  forall fuel (l : list A), (length l <= fuel)%nat -> concat (chunks_aux fuel c l) = l.
Proof.
  induction fuel as [|fuel IH]; intros l Hl.
  - destruct l; [reflexivity | cbn in Hl; lia].
  - destruct l as [|a l'] eqn:El; [reflexivity|].
    rewrite <- El in *.
    assert (Hcut : chunks_aux (S fuel) c l = firstn c l :: chunks_aux fuel c (skipn c l))
      by (rewrite El; reflexivity).
    rewrite Hcut. cbn [concat].
    rewrite IH; [apply List.firstn_skipn|].
    rewrite List.length_skipn. assert (0 < length l)%nat by (rewrite El; cbn; lia). lia.
Qed.

(** Concatenating the chunks gives the list back. *)
Lemma concat_chunks_of {A} (c : nat) (l : list A) : (0 < c)%nat -> concat (chunks_of c l) = l.
Proof. intros Hc. apply concat_chunks_aux; [exact Hc | lia]. Qed.

Lemma length_chunks_of {A} (c : nat) (l : list A) : (0 < c)%nat ->
  length (chunks_of c l) = steps c (length l).
Proof.
  intros Hc. rewrite chunks_of_slices by exact Hc.
  rewrite List.length_map, List.length_seq. reflexivity.
Qed.

Lemma steps_bound c n k : (0 < c)%nat -> (k < steps c n)%nat -> (c * k < n)%nat.
Proof.
  intros Hc Hk. unfold steps in Hk.
  assert (H : (Z.of_nat k < (Z.of_nat n - 0 + Z.of_nat c - 1) / Z.of_nat c)%Z) by lia.
  assert (H' : (Z.of_nat k + 1 <= (Z.of_nat n - 0 + Z.of_nat c - 1) / Z.of_nat c)%Z) by lia.
  pose proof (Z.mul_div_le (Z.of_nat n - 0 + Z.of_nat c - 1) (Z.of_nat c) ltac:(lia)) as D.
  nia.
Qed.

(** The [i]-th chunk is non-empty and holds [c] elements, or what is left. *)
Lemma chunk_size {A} (c : nat) (l : list A) (i : nat) (ch : list A) : (0 < c)%nat ->
  chunks_of c l !! i = Some ch ->
  length ch = Nat.min c (length l - c * i) /\ (0 < length ch)%nat.
Proof.
  intros Hc H. rewrite chunks_of_slices in H by exact Hc.
  rewrite list_lookup_fmap in H.
  destruct (seq 0 (steps c (length l)) !! i) as [k|] eqn:Hk; [|discriminate].
  apply lookup_seq in Hk as [-> Hlt]. cbn in H. injection H as <-.
  pose proof (steps_bound c (length l) i Hc Hlt) as B.
  rewrite List.length_firstn, List.length_skipn. lia.
Qed.

Lemma pcm16_app mul (l1 l2 : list Q) : pcm16 mul (l1 ++ l2) = pcm16 mul l1 ++ pcm16 mul l2.
Proof. unfold pcm16, tobytes. rewrite List.map_app, List.flat_map_app. reflexivity. Qed.

Lemma pcm16_concat mul (chs : list (list Q)) :
  concat (map (pcm16 mul) chs) = pcm16 mul (concat chs).
Proof.
  induction chs as [|ch chs IH]; [reflexivity|].
  cbn [map concat]. rewrite IH, pcm16_app. reflexivity.
Qed.

Lemma length_pcm16 mul (l : list Q) : length (pcm16 mul l) = (2 * length l)%nat.
Proof.
  unfold pcm16, tobytes. induction l as [|x l IH]; [reflexivity|].
  cbn [map flat_map]. rewrite List.length_app, IH. unfold int16_bytes. cbn [length]. lia.
Qed.

(** Lines 203-208: the loop yields the PCM bytes of the recursive cut. *)
Lemma pcm_chunks_spec mul (arr : list Q) :
  pcm_chunks mul arr = map (pcm16 mul) (chunks_of (Z.to_nat 4096) arr).
Proof.
  assert (Hc : (0 < Z.to_nat 4096)%nat) by lia.
  rewrite chunks_of_slices by exact Hc.
  unfold pcm_chunks, py_range, len, steps. rewrite !List.map_map.
  rewrite Z2Nat.id by lia.
  apply List.map_ext. intros k. unfold pcm16, py_slice.
  replace (Z.to_nat (0 + 4096 * Z.of_nat k + 4096 - (0 + 4096 * Z.of_nat k)))
    with (Z.to_nat 4096) by lia.
  replace (Z.to_nat (0 + 4096 * Z.of_nat k)) with (Z.to_nat 4096 * k)%nat by lia.
  reflexivity.
Qed.

End Chunking.

(* ================================================================= *)
(** ** Paths *)

Module Paths.
Import Py FS TTS.

Lemma chars_app a b : chars (a +:+ b) = chars a ++ chars b.
Proof.
  unfold chars. induction a as [|c a IH]; [reflexivity|].
  change (c :: list_ascii_of_string (a +:+ b) = c :: (list_ascii_of_string a ++ list_ascii_of_string b)).
  rewrite IH. reflexivity.
Qed.

Lemma str_chars s : str (chars s) = s.
Proof. apply string_of_list_ascii_of_string. Qed.

Lemma chars_str l : chars (str l) = l.
Proof. apply list_ascii_of_string_of_list_ascii. Qed.

Lemma chars_inj a b : chars a = chars b -> a = b.
Proof. intros H. rewrite <- (str_chars a), <- (str_chars b), H. reflexivity. Qed.

Lemma split_path_no_slash l : forall cur,
  no_slash l = true -> split_path cur l = [rev cur ++ l].
Proof.
  induction l as [|c l IH]; intros cur H.
  - cbn. rewrite app_nil_r. reflexivity.
  - cbn in H. apply andb_true_iff in H as [Hc Hl].
    cbn [split_path]. destruct (is_slash c); [discriminate|].
    rewrite IH by exact Hl. cbn [rev]. rewrite <- app_assoc. reflexivity.
Qed.

Lemma split_path_segment l rest : forall cur,
  no_slash l = true ->
  split_path cur (l ++ "/"%char :: rest) = (rev cur ++ l) :: split_path [] rest.
Proof.
  induction l as [|c l IH]; intros cur H.
  - cbn. rewrite app_nil_r. reflexivity.
  - cbn in H. apply andb_true_iff in H as [Hc Hl].
    cbn [app split_path]. destruct (is_slash c); [discriminate|].
    rewrite IH by exact Hl. cbn [rev]. rewrite <- app_assoc. reflexivity.
Qed.

Lemma enter_push stack comp :
  comp <> [] -> comp <> ["."%char] -> comp <> ["."%char; "."%char] ->
  enter stack comp = comp :: stack.
Proof.
  intros H1 H2 H3. unfold enter.
  rewrite !bool_decide_eq_false_2 by assumption. reflexivity.
Qed.

Lemma enter_skip stack : enter stack [] = stack.
Proof. reflexivity. Qed.

Lemma proper_chars f : proper_name f ->
  chars f <> [] /\ chars f <> ["."%char] /\ chars f <> ["."%char; "."%char]
  /\ no_slash (chars f) = true.
Proof.
  intros ((Hne & Hns) & Hd & Hdd). repeat split; try exact Hns.
  - intros C. apply Hne. apply chars_inj. exact C.
  - intros C. apply Hd. apply chars_inj. exact C.
  - intros C. apply Hdd. apply chars_inj. exact C.
Qed.

(** A proper name under the audio directory resolves to itself. *)
Lemma resolve_child f : proper_name f ->
  resolve (AUDIO_DIR +:+ "/" +:+ f) = AUDIO_DIR +:+ "/" +:+ f.
Proof.
  intros H. destruct (proper_chars f H) as (H1 & H2 & H3 & H4).
  unfold resolve. rewrite !chars_app.
  change (chars AUDIO_DIR ++ chars "/" ++ chars f)
    with ([] ++ "/"%char :: chars "tmp" ++ "/"%char :: chars "tts_audio" ++ "/"%char :: chars f).
  rewrite !split_path_segment by reflexivity.
  rewrite (split_path_no_slash (chars f) [] H4).
  cbn [rev app fold_left]. rewrite enter_skip.
  rewrite !enter_push by (assumption || discriminate).
  cbn [rev app join_components flat_map].
  change (str ("/"%char :: chars "tmp" ++ "/"%char :: chars "tts_audio" ++ "/"%char :: chars f ++ []))
    with (AUDIO_DIR +:+ "/" +:+ str (chars f ++ [])).
  rewrite app_nil_r, str_chars. reflexivity.
Qed.

Lemma join_child f : route_filename f ->
  os_path_join AUDIO_DIR f = AUDIO_DIR +:+ "/" +:+ f.
Proof.
  intros [Hne Hns]. unfold os_path_join, starts_with_slash.
  destruct (chars f) as [|c l] eqn:Hf.
  - exfalso. apply Hne. apply chars_inj. exact Hf.
  - cbn in Hns. apply andb_true_iff in Hns as [Hc _].
    destruct (is_slash c); [discriminate|]. reflexivity.
Qed.

Lemma child_inj a b : AUDIO_DIR +:+ "/" +:+ a = AUDIO_DIR +:+ "/" +:+ b -> a = b.
Proof.
  intros H. apply chars_inj. apply (f_equal chars) in H.
  rewrite !chars_app in H. do 2 apply app_inv_head in H. exact H.
Qed.

(** *** The names [uuid4] builds *)

Lemma slash_free_no_slash l : slash_free l -> no_slash l = true.
Proof.
  unfold slash_free, no_slash. induction 1 as [|c l Hc _ IH]; [reflexivity|].
  cbn. rewrite Hc, IH. reflexivity.
Qed.

Lemma hex_digit_not_slash d : is_slash (hex_digit d) = false.
Proof.
  unfold hex_digit.
  destruct (nth_in_or_default (N.to_nat d) hex_alphabet "f"%char) as [Hin | ->];
    [|reflexivity].
  revert Hin. generalize (nth (N.to_nat d) hex_alphabet "f"%char). intros c Hin.
  assert (All : Forall (fun c => is_slash c = false) hex_alphabet)
    by (repeat constructor).
  rewrite Forall_forall in All. apply All. apply list_elem_of_In. exact Hin.
Qed.

Lemma hex_chars_slash_free n w : slash_free (hex_chars n w).
Proof.
  unfold slash_free, hex_chars. apply Forall_forall. intros c Hc.
  apply list_elem_of_In, in_map_iff in Hc. destruct Hc as (i & <- & _).
  apply hex_digit_not_slash.
Qed.

Lemma uuid_chars_slash_free n : slash_free (uuid_chars n).
Proof.
  unfold uuid_chars, slash_free.
  pose proof (hex_chars_slash_free n 32) as H. unfold slash_free in H.
  repeat (apply Forall_app; split);
    try (apply Forall_take); try (apply Forall_drop); try exact H;
    repeat constructor.
Qed.

Lemma next_filename_proper (E : Env) (st : state E) : proper_name (next_filename E st).
Proof.
  unfold next_filename.
  set (n := uuid4_int (fst (urandom16 E (entropy st)))).
  assert (Hc : chars (str (uuid_chars n) +:+ ".wav") = uuid_chars n ++ chars ".wav")
    by (rewrite chars_app, chars_str; reflexivity).
  assert (Hlen : (4 <= length (chars (str (uuid_chars n) +:+ ".wav")))%nat)
    by (rewrite Hc, List.length_app; cbn; lia).
  repeat split.
  - intros C. rewrite C in Hlen. cbn in Hlen. lia.
  - rewrite Hc. apply slash_free_no_slash. apply Forall_app. split.
    + apply uuid_chars_slash_free.
    + repeat constructor.
  - intros C. rewrite C in Hlen. cbn in Hlen. lia.
  - intros C. rewrite C in Hlen. cbn in Hlen. lia.
Qed.

End Paths.

(* ================================================================= *)
(** ** The definitions on concrete inputs *)

Module Checks.
Import Py FS TTS.

Example split_words :
  str_split (u "  hello   world foo ") = [u "hello"; u "world"; u "foo"].
Proof. reflexivity. Qed.

Example split_blank : str_split (u "   ") = [] /\ str_split (u "") = [].
Proof. split; reflexivity. Qed.

(** Tabs, newlines and the no-break space separate words too. *)
Example split_unicode :
  str_split ([104; 105; 9; 10; 160; 8195; 121; 111; 117]%N) = [[104; 105]; [121; 111; 117]]%N.
Proof. reflexivity. Qed.

Example range_steps :
  py_range 0 10000 4096 = [0; 4096; 8192]%Z
  /\ py_range 0 8192 4096 = [0; 4096]%Z
  /\ py_range 0 0 4096 = [].
Proof. repeat split; reflexivity. Qed.

Example slice_clips : py_slice [1; 2; 3; 4; 5]%Z 2 4 = [3; 4]%Z
                      /\ py_slice [1; 2; 3; 4; 5]%Z 4 4100 = [5]%Z.
Proof. split; reflexivity. Qed.

Example int16_round_trip :
  tobytes [1; -1; 256; -32768; 32767]%Z
    = [x01; x00; xff; xff; x00; x01; x00; x80; xff; x7f]
  /\ int16_pairs [x01; x00; xff; xff; x00; x01; x00; x80; xff; x7f]
     = [1; -1; 256; -32768; 32767]%Z.
Proof. split; reflexivity. Qed.

Example cast_truncates :
  astype_int16 (32767 # 10) = 3276%Z /\ astype_int16 (- 32767 # 10) = (-3276)%Z.
Proof. split; reflexivity. Qed.

Example uuid_shape :
  str (uuid_chars (uuid4_int 0)) = "00000000-0000-4000-8000-000000000000"%string
  /\ str (uuid_chars (uuid4_int 0x0123456789abcdef0123456789abcdef))
     = "01234567-89ab-4def-8123-456789abcdef"%string.
Proof. split; vm_compute; reflexivity. Qed.

Example join_and_resolve :
  os_path_join AUDIO_DIR "a.wav" = "/tmp/tts_audio/a.wav"%string
  /\ os_path_join AUDIO_DIR "/etc/passwd" = "/etc/passwd"%string
  /\ resolve "/tmp/tts_audio/.." = "/tmp"%string
  /\ resolve "/tmp/tts_audio/." = "/tmp/tts_audio"%string.
Proof. repeat split; vm_compute; reflexivity. Qed.

(** [RN 53] on the literals of the source and on a tie. *)
Example literals :
  (lit (1 # 2) == 1 # 2)%Q
  /\ (lit (3 # 10) == 5404319552844595 # 18014398509481984)%Q
  /\ (float_of_int (2 ^ 53 + 1) == inject_Z (2 ^ 53))%Q
  /\ (float_of_int (2 ^ 53 + 3) == inject_Z (2 ^ 53 + 4))%Q.
Proof. repeat split; vm_compute; reflexivity. Qed.

(** [RN 53] against the standard library's binary64 division and
    multiplication, on integers that are floats themselves. *)
Example agrees_with_binary64_division :
  forallb (fun ab =>
             Qeq_bool (SF2Q (SFdiv 53 1024 (Z2SF (fst ab)) (Z2SF (snd ab))))
                      (py_truediv (fst ab) (snd ab)))
          [(1, 3); (2, 16000); (12000, 24000); (7, 10); (-5, 3); (123456789, 16000);
           (9007199254740991, 16000); (48000, 24000); (1, 16000); (16001, 16000)]%Z
  = true.
Proof. vm_compute. reflexivity. Qed.

Example agrees_with_binary64_multiplication :
  forallb (fun ab =>
             Qeq_bool (SF2Q (SFmul 53 1024 (SFdiv 53 1024 (Z2SF (fst ab)) (Z2SF 10))
                                           (Z2SF (snd ab))))
                      (fmul64 (py_truediv (fst ab) 10) (float_of_int (snd ab))))
          [(1, 3); (2, 16000); (3, 24000); (7, 10); (-5, 3); (123456789, 16000); (5, 1000)]%Z
  = true.
Proof. vm_compute. reflexivity. Qed.

(** The sample count and the duration of lines 126 and 141, for one to
    four words. *)
Example tone_of_four_words :
  map tone_samples [1; 2; 3; 4]%Z = [12000; 24000; 36000; 48000]%Z
  /\ map (fun n => py_int (fmul64 (py_truediv (12000 * n) SAMPLING_RATE) (float_of_int 1000)))
         [1; 2; 3; 4]%Z
     = [500; 1000; 1500; 2000]%Z.
Proof. split; vm_compute; reflexivity. Qed.

End Checks.

(* ================================================================= *)
(** ** The text-to-speech service *)

Module TTSFacts.
Import Py FS TTS Rounding.

(** Case analysis on the scrutinees of the goal, innermost first. *)
Ltac destruct_innermost :=
  repeat match goal with
         | |- context [match ?x with _ => _ end] =>
             lazymatch x with
             | context [match _ with _ => _ end] => fail
             | _ => destruct x eqn:?
             end; cbv beta iota zeta
         end.

Lemma text_empty_falsy d :
  text_empty_or_absent d -> truthy (dict_get d "text" (JStr [])) = false.
Proof.
  unfold text_empty_or_absent, dict_get.
  destruct (d !! "text"%string); [trivial | reflexivity].
Qed.


(** Whatever the request, a state that changed means the text passed the
    check of line 87. *)
Lemma state_changes_only_past_the_check (E : Env) (g : globals E) (now : Q)
  (req : pyres json) (st : state E) :
  snd (text_to_speech E g now req st) <> st ->
  exists d, req = Ok (JObj d) /\ truthy (dict_get d "text" (JStr [])) = true.
Proof.
  intros H. destruct req as [data|e]; [|exfalso; apply H; reflexivity].
  destruct data; try (exfalso; apply H; reflexivity).
  exists m. split; [reflexivity|].
  destruct (truthy (dict_get m "text" (JStr []))) eqn:T; [reflexivity|].
  exfalso. apply H.
  unfold text_to_speech, text_to_speech_body, bind, lift, ret. cbn [as_dict].
  rewrite T. reflexivity.
Qed.

(** *** The placeholder tone *)

Lemma len_nonneg {A} (l : list A) : (0 <= len l)%Z.
Proof. unfold len. lia. Qed.

Lemma float_of_int_nonneg k : (0 <= k)%Z -> (0 <= float_of_int k)%Q.
Proof.
  intros H. apply RN_nonneg; [lia|]. rewrite Zle_Qle in H. exact H.
Qed.

Lemma fmul64_nonneg x y : (0 <= x)%Q -> (0 <= y)%Q -> (0 <= fmul64 x y)%Q.
Proof. intros Hx Hy. apply RN_nonneg; [lia|]. nra. Qed.

Lemma tone_samples_nonneg words : (0 <= words)%Z -> (0 <= tone_samples words)%Z.
Proof.
  intros H. apply py_int_nonneg. apply fmul64_nonneg.
  - apply fmul64_nonneg; [apply float_of_int_nonneg, H | rewrite lit_half; lra].
  - apply float_of_int_nonneg. unfold SAMPLING_RATE. lia.
Qed.

(** On a string the tone is always produced, and it has as many samples
    as line 126 asks for. *)
Lemma fallback_tone_str (E : Env) (text : pystr) :
  exists arr, fallback_tone E (JStr text) = Ok arr
              /\ len arr = tone_samples (len (str_split text)).
Proof.
  unfold fallback_tone, split_method.
  fold (tone_samples (len (str_split text))).
  pose proof (tone_samples_nonneg _ (len_nonneg (str_split text))) as Hs.
  set (samples := tone_samples (len (str_split text))) in *.
  unfold np_linspace.
  destruct (samples <? 0)%Z eqn:C; [apply Z.ltb_lt in C; lia|].
  eexists. split; [reflexivity|].
  unfold len. rewrite !List.length_map, List.length_seq. lia.
Qed.

(** Line 126 in exact arithmetic: 12000 samples per word. *)
Lemma tone_samples_exact n : (0 <= n)%Z -> (12000 * n < 2 ^ 53)%Z ->
  tone_samples n = (12000 * n)%Z.
Proof.
  intros H0 Hb. unfold tone_samples, fmul64, SAMPLING_RATE.
  rewrite <- (py_int_Z (12000 * n)). apply py_int_comp.
  rewrite (float_of_int_exact n) by lia.
  rewrite (float_of_int_exact 24000) by (cbn; lia).
  rewrite lit_half.
  rewrite (RN_half 53 n) by lia.
  assert (E : (inject_Z n * (1 # 2) * inject_Z 24000 == inject_Z (12000 * n))%Q).
  { rewrite inject_Z_mult. change (inject_Z 24000) with (24000 # 1)%Q.
    change (inject_Z 12000) with (12000 # 1)%Q. field. }
  rewrite E. apply RN_int; lia.
Qed.

(** Line 141 on an array of 12000 samples per word. *)
Lemma duration_ms_exact n : (0 <= n)%Z -> (12000 * n < 2 ^ 53)%Z ->
  py_int (fmul64 (py_truediv (12000 * n) SAMPLING_RATE) (float_of_int 1000)) = (500 * n)%Z.
Proof.
  intros H0 Hb. unfold fmul64, py_truediv, SAMPLING_RATE.
  rewrite <- (py_int_Z (500 * n)). apply py_int_comp.
  rewrite (float_of_int_exact 1000) by (cbn; lia).
  assert (E1 : (inject_Z (12000 * n) / inject_Z 24000 == inject_Z n * (1 # 2))%Q).
  { rewrite inject_Z_mult. change (inject_Z 24000) with (24000 # 1)%Q.
    change (inject_Z 12000) with (12000 # 1)%Q. field. }
  rewrite E1, (RN_half 53 n) by lia.
  assert (E2 : (inject_Z n * (1 # 2) * inject_Z 1000 == inject_Z (500 * n))%Q).
  { rewrite inject_Z_mult. change (inject_Z 1000) with (1000 # 1)%Q.
    change (inject_Z 500) with (500 # 1)%Q. field. }
  rewrite E2. apply RN_int; lia.
Qed.

(** *** The fallback path of [text_to_speech] *)

Lemma fallback_run (E : Env) (g : globals E) (now : Q) (d : gmap string json)
  (st : state E) (text : pystr) :
  MODEL_LOADED g = false -> d !! "text"%string = Some (JStr text) -> text <> [] ->
  exists arr,
    fallback_tone E (JStr text) = Ok arr
    /\ len arr = tone_samples (len (str_split text))
    /\ text_to_speech E g now (Ok (JObj d)) st =
         (RespSynth ("/audio/" +:+ next_filename E st) (duration_ms_of arr)
                    SAMPLING_RATE "fallback",
          after_save E now st (map to_float32 arr) (rng st)).
Proof.
  intros Hg Ht Hne.
  destruct (fallback_tone_str E text) as (arr & Harr & Hlen).
  exists arr. split; [exact Harr|]. split; [exact Hlen|].
  assert (Hget : dict_get d "text" (JStr []) = JStr text)
    by (unfold dict_get; rewrite Ht; reflexivity).
  assert (T : truthy (JStr text) = true) by (destruct text; [congruence | reflexivity]).
  unfold text_to_speech, text_to_speech_body, bind, lift, ret. cbn [as_dict]. cbv zeta.
  rewrite !Hget, T. cbn [negb]. rewrite Hg.
  unfold uuid4, after_save, duration_ms_of, next_filename.
  destruct (urandom16 E (entropy st)) as [r en]. cbn [fst snd].
  rewrite Harr. unfold torchaudio_save. cbn [fs rng entropy]. reflexivity.
Qed.

(** Every success response names the backend that [MODEL_LOADED] selects. *)
Lemma model_used_tracks_flag (E : Env) (g : globals E) (now : Q) (req : pyres json)
  (st st' : state E) a dur r m :
  text_to_speech E g now req st = (RespSynth a dur r m, st') ->
  m = (if MODEL_LOADED g then "parler-tts" else "fallback")%string.
Proof.
  unfold text_to_speech, text_to_speech_body, bind, lift, ret, uuid4,
    model_generate, torchaudio_save.
  destruct (MODEL_LOADED g); cbv beta iota zeta; destruct_innermost;
    intros H; inversion H; reflexivity.
Qed.

(** The model path, when tokenizer and model return. *)
Lemma loaded_run (E : Env) (g : globals E) (now : Q) (d : gmap string json)
  (st : state E) tok m input_ids prompt_input_ids arr g' :
  MODEL_LOADED g = true -> tokenizer g = Some tok -> model g = Some m ->
  truthy (dict_get d "text" (JStr [])) = true ->
  tokenize E tok (dict_get d "style" default_style) (device E) = Ok input_ids ->
  tokenize E tok (dict_get d "text" (JStr [])) (device E) = Ok prompt_input_ids ->
  generate E m input_ids prompt_input_ids (ones_like E input_ids) (rng st) = (Ok arr, g') ->
  text_to_speech E g now (Ok (JObj d)) st =
    (RespSynth ("/audio/" +:+ next_filename E st) (duration_ms_of arr)
               SAMPLING_RATE "parler-tts",
     after_save E now st arr g').
Proof.
  intros Hg Htok Hm T Hs Ht Hgen.
  unfold text_to_speech, text_to_speech_body, bind, lift, ret. cbn [as_dict]. cbv zeta.
  rewrite T. cbn [negb]. rewrite Hg, Htok, Hm.
  unfold uuid4, after_save, duration_ms_of, next_filename.
  destruct (urandom16 E (entropy st)) as [r en]. cbn [fst snd the].
  rewrite Hs, Ht. unfold model_generate. cbn [fs rng entropy].
  rewrite Hgen. unfold torchaudio_save. cbn [fs rng entropy]. reflexivity.
Qed.

(** [load_model] sets the flag only when every step returned. *)
Lemma load_model_flag (E : Env) :
  MODEL_LOADED (load_model E) = true <->
  exists m t m',
    import_parler_tts E = Ok tt
    /\ model_from_pretrained E "parler-tts/parler-tts-mini-v1" = Ok m
    /\ tokenizer_from_pretrained E "parler-tts/parler-tts-mini-v1" = Ok t
    /\ model_to E m (device E) = Ok m'.
Proof.
  unfold load_model. split.
  - destruct (import_parler_tts E) as [[]|]; [|discriminate].
    destruct (model_from_pretrained E _) as [m|]; [|discriminate].
    destruct (tokenizer_from_pretrained E _) as [t|]; [|discriminate].
    destruct (model_to E m (device E)) as [m'|] eqn:Hto; [|discriminate].
    intros _. exists m, t, m'. repeat split; assumption.
  - intros (m & t & m' & -> & -> & -> & ->). reflexivity.
Qed.

Lemma load_model_loaded_has_objects (E : Env) :
  MODEL_LOADED (load_model E) = true ->
  is_Some (model (load_model E)) /\ is_Some (tokenizer (load_model E)).
Proof.
  intros H. apply load_model_flag in H. destruct H as (m & t & m' & H1 & H2 & H3 & H4).
  unfold load_model. rewrite H1, H2, H3, H4. split; eexists; reflexivity.
Qed.

(** C3. With [MODEL_LOADED] false, every non-empty text gets a success
    response built by the placeholder path, with [model_used] "fallback",
    and the tone is what the file holds; with [MODEL_LOADED] true, a
    success response has [model_used] "parler-tts". *)
Theorem C3_backend_reported (E : Env) (g : globals E) (now : Q)
  (d : gmap string json) (st : state E) (text : pystr) :
  d !! "text"%string = Some (JStr text) -> text <> [] ->
  (MODEL_LOADED g = false ->
   exists arr,
     fallback_tone E (JStr text) = Ok arr
     /\ text_to_speech E g now (Ok (JObj d)) st =
          (RespSynth ("/audio/" +:+ next_filename E st) (duration_ms_of arr)
                     SAMPLING_RATE "fallback",
           after_save E now st (map to_float32 arr) (rng st)))
  /\ (MODEL_LOADED g = true ->
      forall a dur r m st',
        text_to_speech E g now (Ok (JObj d)) st = (RespSynth a dur r m, st') ->
        m = "parler-tts"%string).
Proof.
  intros Ht Hne. split.
  - intros Hg. destruct (fallback_run E g now d st text Hg Ht Hne) as (arr & H1 & _ & H2).
    exists arr. split; assumption.
  - intros Hg a dur r m st' H.
    apply model_used_tracks_flag in H. rewrite Hg in H. exact H.
Qed.

(** C2. With [MODEL_LOADED] false, the duration reported for a non-empty
    text of [n] whitespace-separated words is [500 * n] milliseconds
    (for every [n] with [12000 * n < 2^53], the range in which the sample
    count is an exact float). *)
Theorem C2_fallback_duration (E : Env) (g : globals E) (now : Q)
  (d : gmap string json) (st : state E) (text : pystr) :
  MODEL_LOADED g = false ->
  d !! "text"%string = Some (JStr text) -> text <> [] ->
  (12000 * len (str_split text) < 2 ^ 53)%Z ->
  exists url rate backend st',
    text_to_speech E g now (Ok (JObj d)) st =
      (RespSynth url (500 * len (str_split text)) rate backend, st').
Proof.
  intros Hg Ht Hne Hb.
  destruct (fallback_run E g now d st text Hg Ht Hne) as (arr & _ & Hlen & H).
  rewrite tone_samples_exact in Hlen by (try apply len_nonneg; exact Hb).
  unfold duration_ms_of in H. rewrite Hlen in H.
  rewrite duration_ms_exact in H by (try apply len_nonneg; exact Hb).
  eauto.
Qed.

(** *** The stream *)

(** [text_to_speech] saves what the generation call returns. *)
Lemma synth_saves_generation (E : Env) (g : globals E) (now : Q) (d : gmap string json)
  (st : state E) arr r' :
  truthy (dict_get d "text" (JStr [])) = true ->
  generation E g (dict_get d "text" (JStr [])) (dict_get d "style" default_style) (rng st)
    = (Ok arr, r') ->
  text_to_speech E g now (Ok (JObj d)) st =
    (RespSynth ("/audio/" +:+ next_filename E st) (duration_ms_of arr) SAMPLING_RATE
               (if MODEL_LOADED g then "parler-tts" else "fallback"),
     after_save E now st (saved_samples E g arr) r').
Proof.
  intros T G.
  unfold text_to_speech, text_to_speech_body, bind, lift, ret. cbn [as_dict]. cbv zeta.
  rewrite T. cbn [negb].
  unfold generation, saved_samples in *.
  unfold uuid4, after_save, duration_ms_of, next_filename, model_generate, torchaudio_save.
  destruct (urandom16 E (entropy st)) as [r en]. cbn [fst snd fs rng entropy].
  destruct (MODEL_LOADED g).
  - destruct (the (tokenizer g) not_callable) as [tok|]; [|discriminate].
    destruct (tokenize E tok _ (device E)) as [input_ids|]; [|discriminate].
    destruct (tokenize E tok _ (device E)) as [prompt_input_ids|]; [|discriminate].
    destruct (the (model g) no_generate) as [m|]; [|discriminate].
    cbn [fs rng entropy]. rewrite G. reflexivity.
  - injection G as G <-. rewrite G. reflexivity.
Qed.

(** [text_to_speech_stream] yields the chunks of the same array. *)
Lemma stream_chunks_generation (E : Env) (g : globals E) (d : gmap string json)
  (st : state E) arr r' :
  truthy (dict_get d "text" (JStr [])) = true ->
  generation E g (dict_get d "text" (JStr [])) (dict_get d "style" default_style) (rng st)
    = (Ok arr, r') ->
  text_to_speech_stream E g (Ok (JObj d)) st =
    (RespStream (Ok (pcm_chunks (stream_mul E g) arr)) SAMPLING_RATE,
     {| fs := fs st; rng := r'; entropy := entropy st |}).
Proof.
  intros T G.
  unfold text_to_speech_stream, text_to_speech_stream_body, bind, lift, ret.
  cbn [as_dict]. cbv zeta. rewrite T. cbn [negb].
  unfold generation, generate_audio_stream, stream_mul, bind, lift, ret, model_generate in *.
  destruct (MODEL_LOADED g).
  - destruct (the (tokenizer g) not_callable) as [tok|]; [|discriminate].
    destruct (tokenize E tok _ (device E)) as [input_ids|]; [|discriminate].
    destruct (tokenize E tok _ (device E)) as [prompt_input_ids|]; [|discriminate].
    destruct (the (model g) no_generate) as [m|]; [|discriminate].
    cbn [fs rng entropy]. rewrite G. reflexivity.
  - injection G as G <-. rewrite G. destruct st. reflexivity.
Qed.

(** C9. For a non-empty text and any style, when the generation call
    returns an array, the stream is that array -- the one synthesize saves
    -- converted to 16-bit PCM and cut every 4096 samples, in order: the
    chunks concatenate to the PCM bytes of the whole array, every chunk is
    non-empty and holds 4096 samples or, at the end, what is left. *)
Theorem C9_stream_is_chunked_generation (E : Env) (g : globals E) (now : Q)
  (d : gmap string json) (st : state E) (text : pystr) (arr : list Q) (r' : Rng E) :
  d !! "text"%string = Some (JStr text) -> text <> [] ->
  generation E g (JStr text) (dict_get d "style" default_style) (rng st) = (Ok arr, r') ->
  let mul := stream_mul E g in
  let pieces := chunks_of (Z.to_nat 4096) arr in
  text_to_speech_stream E g (Ok (JObj d)) st =
    (RespStream (Ok (map (pcm16 mul) pieces)) SAMPLING_RATE,
     {| fs := fs st; rng := r'; entropy := entropy st |})
  /\ concat (map (pcm16 mul) pieces) = pcm16 mul arr
  /\ concat pieces = arr
  /\ (forall i piece, pieces !! i = Some piece ->
        length piece = Nat.min (Z.to_nat 4096) (length arr - Z.to_nat 4096 * i)
        /\ (0 < length piece)%nat
        /\ length (pcm16 mul piece) = (2 * length piece)%nat)
  /\ text_to_speech E g now (Ok (JObj d)) st =
       (RespSynth ("/audio/" +:+ next_filename E st) (duration_ms_of arr) SAMPLING_RATE
                  (if MODEL_LOADED g then "parler-tts" else "fallback"),
        after_save E now st (saved_samples E g arr) r').
Proof.
  intros Ht Hne G mul pieces.
  assert (Hget : dict_get d "text" (JStr []) = JStr text)
    by (unfold dict_get; rewrite Ht; reflexivity).
  assert (T : truthy (dict_get d "text" (JStr [])) = true)
    by (rewrite Hget; destruct text; [congruence | reflexivity]).
  rewrite <- Hget in G.
  assert (Hc : (0 < Z.to_nat 4096)%nat) by lia.
  split; [|split; [|split; [|split]]].
  - rewrite (stream_chunks_generation E g d st arr r' T G).
    rewrite Chunking.pcm_chunks_spec. reflexivity.
  - rewrite Chunking.pcm16_concat. unfold pieces.
    rewrite Chunking.concat_chunks_of by exact Hc. reflexivity.
  - apply Chunking.concat_chunks_of, Hc.
  - intros i piece Hi.
    destruct (Chunking.chunk_size _ _ _ _ Hc Hi) as [H1 H2].
    repeat split; [exact H1 | exact H2 | apply Chunking.length_pcm16].
  - apply synth_saves_generation; assumption.
Qed.

(** When the model raises, the stream is the single empty chunk of line
    212 and the response is still a success. *)
Lemma stream_when_model_raises (E : Env) (g : globals E) (d : gmap string json)
  (st : state E) tok m input_ids prompt_input_ids e r' :
  MODEL_LOADED g = true -> tokenizer g = Some tok -> model g = Some m ->
  truthy (dict_get d "text" (JStr [])) = true ->
  tokenize E tok (dict_get d "style" default_style) (device E) = Ok input_ids ->
  tokenize E tok (dict_get d "text" (JStr [])) (device E) = Ok prompt_input_ids ->
  generate E m input_ids prompt_input_ids (ones_like E input_ids) (rng st) = (Raise e, r') ->
  text_to_speech_stream E g (Ok (JObj d)) st =
    (RespStream (Ok [[]]) SAMPLING_RATE,
     {| fs := fs st; rng := r'; entropy := entropy st |}).
Proof.
  intros Hg Htok Hm T Hs Ht Hgen.
  unfold text_to_speech_stream, text_to_speech_stream_body, bind, lift, ret.
  cbn [as_dict]. cbv zeta. rewrite T. cbn [negb].
  unfold generate_audio_stream, bind, lift, ret, model_generate.
  rewrite Hg, Htok, Hm. cbn [the]. rewrite Hs, Ht, Hgen. reflexivity.
Qed.

(** *** Serving audio *)

(** What a synthesize call does to the file system: nothing, or one write
    at the path of the name it hands out. *)
Lemma synth_fs_effect (E : Env) (g : globals E) (now : Q) (req : pyres json) (st : state E) :
  fs (snd (text_to_speech E g now req st)) = fs st
  \/ exists c dur rate m,
       fs (snd (text_to_speech E g now req st)) =
         write_file (fs st) (os_path_join AUDIO_DIR (next_filename E st)) c now
       /\ fst (text_to_speech E g now req st) =
            RespSynth ("/audio/" +:+ next_filename E st) dur rate m.
Proof.
  unfold text_to_speech, text_to_speech_body, bind, lift, ret, uuid4,
    model_generate, torchaudio_save, next_filename.
  cbv beta iota zeta. destruct_innermost; cbn [fst snd fs];
    try (left; reflexivity); right; repeat eexists.
Qed.

Lemma stream_fs_effect (E : Env) (g : globals E) (req : pyres json) (st : state E) :
  fs (snd (text_to_speech_stream E g req st)) = fs st.
Proof.
  unfold text_to_speech_stream, text_to_speech_stream_body, generate_audio_stream,
    bind, lift, ret, model_generate.
  cbv beta iota zeta. destruct_innermost; reflexivity.
Qed.

Lemma sweep_one_lookup now (fs0 : gmap string node) name k :
  sweep_one now fs0 name !! k = None \/ sweep_one now fs0 name !! k = fs0 !! k.
Proof.
  unfold sweep_one, os_remove.
  destruct (os_path_isfile fs0 _); [|right; reflexivity].
  destruct (Qle_bool _ 3600); [right; reflexivity|].
  destruct (decide (resolve (os_path_join AUDIO_DIR name) = k)) as [<-|Hne].
  - left. apply lookup_delete_eq.
  - right. apply lookup_delete_ne. exact Hne.
Qed.

(** The sweep only deletes. *)
Lemma sweep_lookup (E : Env) now (st : state E) k :
  fs (cleanup_old_files E now st) !! k = None
  \/ fs (cleanup_old_files E now st) !! k = fs st !! k.
Proof.
  unfold cleanup_old_files. cbn [fs].
  generalize (os_listdir (fs st) AUDIO_DIR). intros names.
  generalize (fs st). induction names as [|n names IH]; intros fs0.
  - right. reflexivity.
  - cbn [fold_left]. destruct (IH (sweep_one now fs0 n)) as [H|H]; [left; exact H|].
    rewrite H. apply sweep_one_lookup.
Qed.

Lemma produced_app_l rs rs' f : produced rs f -> produced (rs ++ rs') f.
Proof. intros (d & r & m & H). exists d, r, m. apply in_or_app. left. exact H. Qed.

Lemma produced_app_r rs rs' f : produced rs' f -> produced (rs ++ rs') f.
Proof. intros (d & r & m & H). exists d, r, m. apply in_or_app. right. exact H. Qed.

Lemma handle_keeps_only_produced (E : Env) (g : globals E) now r (st : state E) rs :
  only_produced rs (fs st) ->
  only_produced (rs ++ fst (handle E g now r st)) (fs (snd (handle E g now r st))).
Proof.
  intros Inv name Hname. destruct r as [body|body|f|]; cbn [handle] in *.
  - destruct (text_to_speech E g now body st) as [resp st'] eqn:Hr. cbn [fst snd] in *.
    pose proof (synth_fs_effect E g now body st) as Hfs. rewrite Hr in Hfs. cbn [fst snd] in Hfs.
    destruct Hfs as [Hfs | (c & dur & rate & m & Hfs & Hresp)].
    + apply produced_app_l, Inv. rewrite <- Hfs. exact Hname.
    + rewrite Hfs in Hname. unfold write_file in Hname.
      pose proof (Paths.next_filename_proper E st) as Hp.
      rewrite (Paths.join_child _ (proj1 Hp)), (Paths.resolve_child _ Hp) in Hname.
      destruct (decide (AUDIO_DIR +:+ "/" +:+ next_filename E st = AUDIO_DIR +:+ "/" +:+ name))
        as [Heq|Hne].
      * apply Paths.child_inj in Heq. subst name. apply produced_app_r.
        exists dur, rate, m. rewrite Hresp. left. reflexivity.
      * rewrite lookup_insert_ne in Hname by exact Hne. apply produced_app_l, Inv, Hname.
  - destruct (text_to_speech_stream E g body st) as [resp st'] eqn:Hr. cbn [fst snd] in *.
    pose proof (stream_fs_effect E g body st) as Hfs. rewrite Hr in Hfs. cbn [snd] in Hfs.
    apply produced_app_l, Inv. rewrite <- Hfs. exact Hname.
  - unfold serve_audio in *. cbn [fst snd] in *. apply produced_app_l, Inv, Hname.
  - cbn [fst snd] in *. rewrite app_nil_r.
    destruct (sweep_lookup E now st (AUDIO_DIR +:+ "/" +:+ name)) as [H|H];
      [congruence|]. apply Inv. rewrite <- H. exact Hname.
Qed.

Lemma run_keeps_only_produced (E : Env) (g : globals E) evs :
  forall (st : state E) rs,
    only_produced rs (fs st) ->
    only_produced (rs ++ fst (run E g evs st)) (fs (snd (run E g evs st))).
Proof.
  induction evs as [|[now r] evs IH]; intros st rs Inv.
  - cbn. rewrite app_nil_r. exact Inv.
  - cbn [run].
    pose proof (handle_keeps_only_produced E g now r st rs Inv) as H1.
    destruct (handle E g now r st) as [out st1]. cbn [fst snd] in H1.
    pose proof (IH st1 (rs ++ out) H1) as H2.
    destruct (run E g evs st1) as [outs st2]. cbn [fst snd] in *.
    rewrite app_assoc. exact H2.
Qed.

(** [serve_audio] answers 404 exactly when nothing exists at the joined
    path. *)
Lemma serve_audio_404 (E : Env) f (st : state E) :
  status (fst (serve_audio E f st)) = 404%Z <->
  os_path_exists (fs st) (os_path_join AUDIO_DIR f) = false.
Proof.
  unfold serve_audio, os_path_exists, send_file. cbn [fst].
  destruct (fs st !! resolve (os_path_join AUDIO_DIR f)) as [[c t|]|]; cbn;
    split; intros H; try reflexivity; discriminate.
Qed.

(** What it serves is the file at the resolved path. *)
Lemma serve_audio_file (E : Env) f (st : state E) c :
  fst (serve_audio E f st) = RespFile c <->
  exists t, fs st !! resolve (os_path_join AUDIO_DIR f) = Some (File c t).
Proof.
  unfold serve_audio, os_path_exists, send_file. cbn [fst].
  destruct (fs st !! resolve (os_path_join AUDIO_DIR f)) as [[c' t|]|]; split.
  - intros H. injection H as <-. exists t. reflexivity.
  - intros (t' & H). injection H as <- _. reflexivity.
  - discriminate.
  - intros (t' & H). discriminate.
  - discriminate.
  - intros (t' & H). discriminate.
Qed.

(** A directory at the resolved path is answered 500. *)
Lemma serve_audio_directory (E : Env) f (st : state E) :
  fs st !! resolve (os_path_join AUDIO_DIR f) = Some Dir ->
  fst (serve_audio E f st) = RespError 500 "[Errno 21] Is a directory".
Proof.
  intros H. unfold serve_audio, os_path_exists, send_file. cbn [fst]. rewrite H. reflexivity.
Qed.

(** C4, as amended. The endpoint answers 404 exactly when nothing exists
    at the audio directory joined with the name, and a file it serves is
    the one at that path, which for a name other than [.] and [..] lies
    directly under the audio directory.  In a run that starts with the
    audio directory empty, a name no synthesize call handed out, other
    than [.] and [..], is answered 404. *)
Theorem C4_unknown_names_in_a_closed_directory (E : Env) (g : globals E)
  (st0 : state E) (evs : list (Q * request)) (f : string) :
  proper_name f ->
  let st := snd (run E g evs st0) in
  (status (fst (serve_audio E f st)) = 404%Z <-> fs st !! (AUDIO_DIR +:+ "/" +:+ f) = None)
  /\ (forall c, fst (serve_audio E f st) = RespFile c ->
       exists t, fs st !! (AUDIO_DIR +:+ "/" +:+ f) = Some (File c t))
  /\ (audio_dir_empty (fs st0) ->
      ~ produced (fst (run E g evs st0)) f ->
      fst (serve_audio E f st) = RespError 404 "Audio file not found").
Proof.
  intros Hp st.
  assert (Hpath : resolve (os_path_join AUDIO_DIR f) = AUDIO_DIR +:+ "/" +:+ f)
    by (rewrite (Paths.join_child _ (proj1 Hp)); apply Paths.resolve_child, Hp).
  split; [|split].
  - rewrite serve_audio_404. unfold os_path_exists. rewrite Hpath.
    destruct (fs st !! _); split; intros H; congruence.
  - intros c H. apply serve_audio_file in H. rewrite Hpath in H. exact H.
  - intros Hempty Hnp.
    assert (Inv0 : only_produced [] (fs st0)).
    { intros name Hname. exfalso. apply Hname. apply Hempty. }
    pose proof (run_keeps_only_produced E g evs st0 [] Inv0) as Inv.
    cbn [app] in Inv. fold st in Inv.
    assert (Hnone : fs st !! (AUDIO_DIR +:+ "/" +:+ f) = None).
    { destruct (fs st !! (AUDIO_DIR +:+ "/" +:+ f)) eqn:Hl; [|reflexivity].
      exfalso. apply Hnp, Inv. rewrite Hl. discriminate. }
    unfold serve_audio, os_path_exists. cbn [fst]. rewrite Hpath, Hnone. reflexivity.
Qed.

(** C4, as stated, fails: with a file that something else left in the audio
    directory and no synthesize call at all, the name of that file is a
    name of the route, no synthesize call produced it, and the endpoint
    serves it instead of answering 404. *)
Lemma C4_foreign_file_is_served :
  route_filename "greeting.wav"
  /\ ~ produced (fst (run Demo.tts_env Demo.tts_fallback [] Demo.tts_foreign)) "greeting.wav"
  /\ fst (serve_audio Demo.tts_env "greeting.wav"
            (snd (run Demo.tts_env Demo.tts_fallback [] Demo.tts_foreign)))
     = RespFile [x52; x49; x46; x46]
  /\ ~ unknown_names_get_404 Demo.tts_env Demo.tts_fallback.
Proof.
  assert (R : route_filename "greeting.wav") by (split; [discriminate | reflexivity]).
  assert (P : ~ produced (fst (run Demo.tts_env Demo.tts_fallback [] Demo.tts_foreign))
                "greeting.wav") by (intros (d & r & m & []) ).
  assert (S : fst (serve_audio Demo.tts_env "greeting.wav"
                     (snd (run Demo.tts_env Demo.tts_fallback [] Demo.tts_foreign)))
              = RespFile [x52; x49; x46; x46]) by (vm_compute; reflexivity).
  repeat split; try assumption; try discriminate.
  intros C. specialize (C Demo.tts_foreign [] "greeting.wav"%string R P).
  rewrite S in C. discriminate C.
Qed.

(** In a fresh directory the two self-references are answered 500: they
    exist, as directories. *)
Lemma serve_audio_self_references :
  fst (serve_audio Demo.tts_env "." Demo.tts_fresh) = RespError 500 "[Errno 21] Is a directory"
  /\ fst (serve_audio Demo.tts_env ".." Demo.tts_fresh) = RespError 500 "[Errno 21] Is a directory".
Proof. split; vm_compute; reflexivity. Qed.

(** A body that is not a JSON object is answered 500, and leaves the state
    as it was. *)
Lemma non_object_body_rejected (E : Env) (g : globals E) (now : Q) (data : json)
  (st : state E) e :
  as_dict data = Raise e ->
  text_to_speech E g now (Ok data) st = (RespError 500 e, st).
Proof.
  intros H. unfold text_to_speech, text_to_speech_body, bind, lift. rewrite H. reflexivity.
Qed.

(** C8. Two synthesize requests that agree on every field but [language]
    get the same response and leave the same state (same file, same
    generator state): the language does not flow into any output. *)
Theorem C8_language_noninterference (E : Env) (g : globals E) (now : Q)
  (d1 d2 : gmap string json) (st : state E) :
  (forall k, k <> "language"%string -> d1 !! k = d2 !! k) ->
  text_to_speech E g now (Ok (JObj d1)) st = text_to_speech E g now (Ok (JObj d2)) st.
Proof.
  intros H.
  assert (Ht : dict_get d1 "text" (JStr []) = dict_get d2 "text" (JStr []))
    by (unfold dict_get; rewrite H by discriminate; reflexivity).
  assert (Hs : dict_get d1 "style" default_style = dict_get d2 "style" default_style)
    by (unfold dict_get; rewrite H by discriminate; reflexivity).
  unfold text_to_speech, text_to_speech_body, bind, lift. cbn [as_dict].
  rewrite Ht, Hs. reflexivity.
Qed.

(** *** The theorems at concrete requests *)


Lemma hello_text :
  Demo.hello_request !! "text"%string = Some (JStr (u "hello brave new world")).
Proof. vm_compute. reflexivity. Qed.

Lemma hello_nonempty : u "hello brave new world" <> [].
Proof. discriminate. Qed.

Lemma C2_fallback_duration_witness :
  (12000 * len (str_split (u "hello brave new world")) < 2 ^ 53)%Z
  /\ exists url rate backend st',
       text_to_speech Demo.tts_env Demo.tts_fallback 0 (Ok (JObj Demo.hello_request))
         Demo.tts_fresh
       = (RespSynth url (500 * len (str_split (u "hello brave new world"))) rate backend, st').
Proof.
  assert (B : (12000 * len (str_split (u "hello brave new world")) < 2 ^ 53)%Z)
    by (vm_compute; reflexivity).
  split; [exact B|].
  exact (C2_fallback_duration Demo.tts_env Demo.tts_fallback 0 Demo.hello_request
           Demo.tts_fresh (u "hello brave new world") eq_refl hello_text hello_nonempty B).
Defined.

Lemma C3_backend_reported_witness :
  Demo.hello_request !! "text"%string = Some (JStr (u "hello brave new world"))
  /\ exists arr,
       fallback_tone Demo.tts_env (JStr (u "hello brave new world")) = Ok arr
       /\ text_to_speech Demo.tts_env Demo.tts_fallback 0 (Ok (JObj Demo.hello_request))
            Demo.tts_fresh
          = (RespSynth ("/audio/" +:+ next_filename Demo.tts_env Demo.tts_fresh)
                       (duration_ms_of arr) SAMPLING_RATE "fallback",
             after_save Demo.tts_env 0 Demo.tts_fresh (map to_float32 arr)
               (rng Demo.tts_fresh)).
Proof.
  split; [exact hello_text|].
  exact (proj1 (C3_backend_reported Demo.tts_env Demo.tts_fallback 0 Demo.hello_request
                  Demo.tts_fresh (u "hello brave new world") hello_text hello_nonempty)
           eq_refl).
Defined.

Lemma missing_is_proper : proper_name "missing.wav".
Proof. repeat split; (discriminate || reflexivity). Qed.

Lemma fresh_is_empty : audio_dir_empty (fs Demo.tts_fresh).
Proof.
  intros name. cbn [fs Demo.tts_fresh].
  assert (N1 : "/tmp"%string <> AUDIO_DIR +:+ "/" +:+ name) by discriminate.
  assert (N2 : "/tmp/tts_audio"%string <> AUDIO_DIR +:+ "/" +:+ name).
  { intros C. vm_compute in C. discriminate C. }
  rewrite lookup_insert_ne by exact N1. apply lookup_singleton_ne. exact N2.
Qed.

(** A run: one synthesize call, one request for its file, a sweep an hour
    and a half later; then a request for a name never handed out. *)
Lemma C4_unknown_names_in_a_closed_directory_witness :
  proper_name "missing.wav"
  /\ fst (serve_audio Demo.tts_env "missing.wav"
            (snd (run Demo.tts_env Demo.tts_loaded
                    [(0%Q, Synthesize (Ok (JObj Demo.hello_request)));
                     (1%Q, Audio "00000000-0000-4000-8000-000000000000.wav");
                     (5400%Q, Sweep)]
                    Demo.tts_fresh)))
     = RespError 404 "Audio file not found".
Proof.
  split; [exact missing_is_proper|].
  refine (proj2 (proj2 (C4_unknown_names_in_a_closed_directory Demo.tts_env Demo.tts_loaded
                          Demo.tts_fresh _ "missing.wav" missing_is_proper))
            fresh_is_empty _).
  intros (d & r & m & H). vm_compute in H.
  destruct H as [H|[H|[]]]; discriminate H.
Defined.

Lemma C8_language_noninterference_witness :
  text_to_speech Demo.tts_env Demo.tts_loaded 0 (Ok (JObj Demo.hello_request)) Demo.tts_fresh
  = text_to_speech Demo.tts_env Demo.tts_loaded 0
      (Ok (JObj (<["language"%string := JStr (u "en")]> Demo.hello_request))) Demo.tts_fresh.
Proof.
  apply C8_language_noninterference.
  intros k Hk. symmetry. apply lookup_insert_ne. congruence.
Defined.

Lemma C9_stream_is_chunked_generation_witness :
  let arr := map (fun c => to_float32 (inject_Z (Z.of_N c mod 100) / 128))
                 (u "hello brave new world") in
  generation Demo.tts_env Demo.tts_loaded (JStr (u "hello brave new world"))
    (dict_get Demo.hello_request "style" default_style) (rng Demo.tts_fresh)
  = (Ok arr, 1%N)
  /\ text_to_speech_stream Demo.tts_env Demo.tts_loaded (Ok (JObj Demo.hello_request))
       Demo.tts_fresh
     = (RespStream (Ok (map (pcm16 (stream_mul Demo.tts_env Demo.tts_loaded))
                            (chunks_of (Z.to_nat 4096) arr))) SAMPLING_RATE,
        TTS.Build_state Demo.tts_env (fs Demo.tts_fresh) 1%N (entropy Demo.tts_fresh))
  /\ concat (map (pcm16 (stream_mul Demo.tts_env Demo.tts_loaded))
                 (chunks_of (Z.to_nat 4096) arr))
     = pcm16 (stream_mul Demo.tts_env Demo.tts_loaded) arr.
Proof.
  intros arr.
  assert (G : generation Demo.tts_env Demo.tts_loaded (JStr (u "hello brave new world"))
                (dict_get Demo.hello_request "style" default_style) (rng Demo.tts_fresh)
              = (Ok arr, 1%N)) by (vm_compute; reflexivity).
  pose proof (C9_stream_is_chunked_generation Demo.tts_env Demo.tts_loaded 0
                Demo.hello_request Demo.tts_fresh (u "hello brave new world") arr 1%N
                hello_text hello_nonempty G) as (H1 & H2 & _).
  split; [exact G | split; [exact H1 | exact H2]].
Defined.

End TTSFacts.

(* ================================================================= *)
(** ** The voice-activity service *)

Module VADFacts.
Import Py VAD Rounding.

Lemma detect_speech_unfold (E : Env) (req : request) (st : state E) audio_file :
  files req !! "file"%string = Some audio_file ->
  detect_speech E req st =
    (let p := fst (temp_name E (entropy st)) in
     match detect_speech_try E p (persisted E audio_file st) with
     | (Ok r, st') => (r, remove_if_exists E p st')
     | (Raise e, st') => (RespError 500 e, remove_if_exists E p st')
     end).
Proof.
  intros H. unfold detect_speech, detect_speech_body. rewrite H.
  unfold bind, named_temporary_file, save_upload, finally, persisted.
  destruct (temp_name E (entropy st)) as [p en]. cbn [fst snd fs mstate entropy model_calls].
  destruct (detect_speech_try E p _) as [[r|e] st']; reflexivity.
Qed.

Lemma remove_if_exists_gone (E : Env) p (st : state E) :
  fs (remove_if_exists E p st) !! p = None.
Proof.
  unfold remove_if_exists. destruct (fs st !! p) eqn:H; [|exact H].
  cbn [fs]. apply lookup_delete_eq.
Qed.

(** C5. Once the upload is persisted at the temporary path, that path
    holds no file when [detect_speech] returns, whether the inner [try]
    returned a response or raised (the response is then the 500 of line
    122). *)
Theorem C5_temp_file_removed (E : Env) (req : request) (st : state E)
  (audio_file : list byte) :
  files req !! "file"%string = Some audio_file ->
  let p := fst (temp_name E (entropy st)) in
  fs (persisted E audio_file st) !! p = Some audio_file
  /\ (forall r st', detect_speech_try E p (persisted E audio_file st) = (Ok r, st') ->
       fst (detect_speech E req st) = r
       /\ fs (snd (detect_speech E req st)) !! p = None)
  /\ (forall e st', detect_speech_try E p (persisted E audio_file st) = (Raise e, st') ->
       fst (detect_speech E req st) = RespError 500 e
       /\ fs (snd (detect_speech E req st)) !! p = None)
  /\ fs (snd (detect_speech E req st)) !! p = None.
Proof.
  intros H p. rewrite (detect_speech_unfold E req st audio_file H). fold p.
  split; [|split; [|split]].
  - unfold persisted. cbn [fs]. apply lookup_insert_eq.
  - intros r st' Hr. cbv zeta. rewrite Hr. cbn [fst snd].
    split; [reflexivity | apply remove_if_exists_gone].
  - intros e st' Hr. cbv zeta. rewrite Hr. cbn [fst snd].
    split; [reflexivity | apply remove_if_exists_gone].
  - cbv zeta. destruct (detect_speech_try E p _) as [[r|e] st'];
      cbn [snd]; apply remove_if_exists_gone.
Qed.

(** The inner [try] after a segmentation pass that returned [segs]. *)
Lemma try_after_segmentation (E : Env) (req : request) (st : state E) wav segs ms'
  audio_file :
  files req !! "file"%string = Some audio_file ->
  decode_audio E audio_file SAMPLING_RATE = Ok wav ->
  get_speech_timestamps E wav THRESHOLD SAMPLING_RATE 250 100 512 30 (mstate st)
    = (Ok segs, ms') ->
  detect_speech_try E (fst (temp_name E (entropy st))) (persisted E audio_file st) =
    let st1 := {| fs := fs (persisted E audio_file st); mstate := ms';
                  entropy := entropy (persisted E audio_file st);
                  model_calls := model_calls st |} in
    match (if (0 <? len segs)%Z then score_segments E wav segs else ret []) st1 with
    | (Ok speech_probs, st2) =>
        (Ok (RespDetect (0 <? len segs)%Z (map to_seconds segs)
               match speech_probs with [] => 0%Q | _ => np_mean E speech_probs end
               (len segs)), st2)
    | (Raise e, st2) => (Raise e, st2)
    end.
Proof.
  intros Hf Hd Hs.
  unfold detect_speech_try, bind, read_audio, segmentation_pass.
  unfold persisted at 1. cbn [fs]. rewrite lookup_insert_eq, Hd.
  unfold persisted at 1. cbn [mstate]. rewrite Hs.
  cbn [fs entropy model_calls persisted].
  destruct ((if (0 <? len segs)%Z then score_segments E wav segs else ret []) _)
    as [[probs|e] st2]; reflexivity.
Qed.

(** C6. When the segmentation pass returns no segment, the response has
    [has_speech] false, no timestamps, confidence 0.0 and zero segments,
    and the handler does not evaluate the model: the list of its own
    model evaluations is unchanged and the model is left as the
    segmentation pass left it. *)
Theorem C6_silence (E : Env) (req : request) (st : state E) (wav : Tensor E)
  (ms' : MState E) :
  segmentation_of E req st wav [] ms' ->
  fst (detect_speech E req st) = RespDetect false [] 0 0
  /\ model_calls (snd (detect_speech E req st)) = model_calls st
  /\ mstate (snd (detect_speech E req st)) = ms'.
Proof.
  intros (audio_file & Hf & Hd & Hs).
  rewrite (detect_speech_unfold E req st audio_file Hf). cbv zeta.
  rewrite (try_after_segmentation E req st wav [] ms' audio_file Hf Hd Hs).
  change (0 <? len (@nil segment))%Z with false. cbv beta iota zeta.
  unfold ret, remove_if_exists. cbn [map fst snd fs].
  destruct (fs (persisted E audio_file st) !! fst (temp_name E (entropy st)));
    cbn [model_calls mstate]; repeat split; reflexivity.
Qed.






(** *** Single-chunk detection *)

Lemma Z_of_byte_range b : (0 <= Z_of_byte b <= 255)%Z.
Proof. unfold Z_of_byte. pose proof (Byte.to_N_bounded b). lia. Qed.

Lemma int16_of_bytes_range lo hi : (-32768 <= int16_of_bytes lo hi <= 32767)%Z.
Proof.
  unfold int16_of_bytes.
  pose proof (Z_of_byte_range lo). pose proof (Z_of_byte_range hi).
  destruct (Z.ltb_spec (Z_of_byte lo + 256 * Z_of_byte hi) 32768); lia.
Qed.

Lemma int16_pairs_range : forall bs,
  Forall (fun v => (-32768 <= v <= 32767)%Z) (int16_pairs bs).
Proof.
  fix IH 1. intros [|lo [|hi rest]]; cbn [int16_pairs]; constructor.
  - apply int16_of_bytes_range.
  - apply IH.
Qed.

Lemma length_int16_pairs : forall bs,
  Nat.even (length bs) = true -> (2 * length (int16_pairs bs) = length bs)%nat.
Proof.
  fix IH 1. intros [|lo [|hi rest]] H; cbn [int16_pairs length] in *.
  - reflexivity.
  - discriminate H.
  - specialize (IH rest H). lia.
Qed.

(** Line 146 on one int16: the quotient by 32768, exactly, in [-1, 1). *)
Lemma normalize_exact v : (-32768 <= v <= 32767)%Z ->
  (normalize v == v # 32768)%Q /\ (-1 <= normalize v)%Q /\ (normalize v < 1)%Q.
Proof.
  intros Hv.
  assert (E : (normalize v == v # 32768)%Q).
  { unfold normalize, fdiv32, to_float32.
    rewrite (RN_int 24 v) by lia.
    assert (E1 : (inject_Z v / 32768 == inject_Z v * pow2 (-15))%Q)
      by (change (pow2 (-15)) with (/ 32768)%Q; reflexivity).
    rewrite E1, (RN_exact 24 v (-15)) by lia.
    change (pow2 (-15)) with (/ 32768)%Q.
    unfold Qeq, Qmult, Qinv, inject_Z. cbn. lia. }
  split; [exact E|]. rewrite E. unfold Qle, Qlt. cbn. lia.
Qed.

(** C10. A payload of odd length is answered 500 with the decoder's
    message, the model is not evaluated and nothing changes; for a payload
    of even length every pair of bytes is one int16 sample, normalised to
    exactly [v / 32768], which lies in [-1, 1), and the model is evaluated
    once, on these samples. *)
Theorem C10_chunk_decoding (E : Env) (req : request) (st : state E) :
  let payload := match files req !! "file"%string with
                 | Some audio_file => audio_file
                 | None => data req
                 end in
  (Nat.even (length payload) = false ->
   detect_stream E req st =
     (RespError 500 "buffer size must be a multiple of element size", st))
  /\ (Nat.even (length payload) = true ->
      let samples := int16_pairs payload in
      (2 * length samples = length payload)%nat
      /\ Forall (fun v => (-32768 <= v <= 32767)%Z
                          /\ (normalize v == v # 32768)%Q
                          /\ (-1 <= normalize v)%Q /\ (normalize v < 1)%Q) samples
      /\ model_calls (snd (detect_stream E req st)) =
           model_calls st ++ [from_numpy E (map normalize samples)]).
Proof.
  intros payload. split.
  - intros Hodd. unfold detect_stream, detect_stream_body, bind, lift.
    fold payload. unfold np_frombuffer_int16. rewrite Hodd. reflexivity.
  - intros Heven samples. split; [|split].
    + apply length_int16_pairs, Heven.
    + pose proof (int16_pairs_range payload) as R. fold samples in R.
      induction R as [|v l Hv _ IH]; constructor; [|exact IH].
      split; [exact Hv | apply normalize_exact, Hv].
    + unfold detect_stream, detect_stream_body, bind, lift, call_model.
      fold payload. unfold np_frombuffer_int16. rewrite Heven. fold samples.
      destruct (model_eval E _ SAMPLING_RATE (mstate st)) as [[p|e] ms]; reflexivity.
Qed.

(** The iterator endpoint answers 501 whatever it is sent. *)
Lemma vad_iterator_not_implemented : status vad_iterator_endpoint = 501%Z.
Proof. reflexivity. Qed.


(** *** The theorems at concrete requests *)

Lemma silent_file : files Demo.silent_upload !! "file"%string = Some [x00; x00; x00; x00].
Proof. vm_compute. reflexivity. Qed.

Lemma C5_temp_file_removed_witness :
  files Demo.silent_upload !! "file"%string = Some [x00; x00; x00; x00]
  /\ fs (snd (detect_speech Demo.vad_env Demo.silent_upload Demo.vad_fresh))
       !! fst (temp_name Demo.vad_env (entropy Demo.vad_fresh)) = None.
Proof.
  split; [exact silent_file|].
  exact (proj2 (proj2 (proj2 (C5_temp_file_removed Demo.vad_env Demo.silent_upload
                                Demo.vad_fresh [x00; x00; x00; x00] silent_file)))).
Defined.

Lemma silent_segmentation :
  segmentation_of Demo.vad_env Demo.silent_upload Demo.vad_fresh [0%Q; 0%Q] [] 1%nat.
Proof. exists [x00; x00; x00; x00]. repeat split; vm_compute; reflexivity. Qed.

Lemma C6_silence_witness :
  segmentation_of Demo.vad_env Demo.silent_upload Demo.vad_fresh [0%Q; 0%Q] [] 1%nat
  /\ fst (detect_speech Demo.vad_env Demo.silent_upload Demo.vad_fresh)
     = RespDetect false [] 0 0
  /\ model_calls (snd (detect_speech Demo.vad_env Demo.silent_upload Demo.vad_fresh)) = [].
Proof.
  split; [exact silent_segmentation|].
  destruct (C6_silence Demo.vad_env Demo.silent_upload Demo.vad_fresh [0%Q; 0%Q] 1%nat
              silent_segmentation) as (H1 & H2 & _).
  split; [exact H1 | exact H2].
Defined.




Lemma C10_chunk_decoding_witness :
  detect_stream Demo.vad_env Demo.odd_body Demo.vad_fresh
  = (RespError 500 "buffer size must be a multiple of element size", Demo.vad_fresh)
  /\ model_calls (snd (detect_stream Demo.vad_env Demo.even_body Demo.vad_fresh))
     = [map normalize [16384; 32767]%Z].
Proof.
  split.
  - exact (proj1 (C10_chunk_decoding Demo.vad_env Demo.odd_body Demo.vad_fresh) eq_refl).
  - exact (proj2 (proj2 (proj2 (C10_chunk_decoding Demo.vad_env Demo.even_body Demo.vad_fresh)
                           eq_refl))).
Defined.

End VADFacts.

(* ================================================================= *)
(** ** More on the text-to-speech service *)

Module TTSMore.
Import Py FS TTS Rounding TTSFacts.

(** *** Loading *)

(** [load_model] (lines 30-53) sets [MODEL_LOADED] exactly when the import,
    both [from_pretrained] calls and the move to the device all returned,
    and then both globals hold an object: a handler that sees the flag
    set never meets a [None]. *)
Theorem load_model_outcome (E : Env) :
  (MODEL_LOADED (load_model E) = true <->
   exists m t m',
     import_parler_tts E = Ok tt
     /\ model_from_pretrained E "parler-tts/parler-tts-mini-v1" = Ok m
     /\ tokenizer_from_pretrained E "parler-tts/parler-tts-mini-v1" = Ok t
     /\ model_to E m (device E) = Ok m')
  /\ (MODEL_LOADED (load_model E) = true ->
      is_Some (model (load_model E)) /\ is_Some (tokenizer (load_model E))).
Proof.
  split; [apply load_model_flag | apply load_model_loaded_has_objects].
Qed.

Lemma load_model_outcome_witness :
  MODEL_LOADED (load_model Demo.tts_env) = true
  /\ is_Some (model (load_model Demo.tts_env))
  /\ is_Some (tokenizer (load_model Demo.tts_env)).
Proof.
  assert (L : MODEL_LOADED (load_model Demo.tts_env) = true) by reflexivity.
  split; [exact L|]. exact (proj2 (load_model_outcome Demo.tts_env) L).
Defined.

(** *** The stream endpoint *)

(** [text_to_speech_stream] (lines 172-177) answers an empty or missing
    text with 400 "No text provided" before the generator is built; the
    state is left as it was. *)
Theorem stream_empty_text_rejected (E : Env) (g : globals E)
  (d : gmap string json) (st : state E) :
  text_empty_or_absent d ->
  text_to_speech_stream E g (Ok (JObj d)) st = (RespError 400 "No text provided", st).
Proof.
  intros H. apply text_empty_falsy in H.
  unfold text_to_speech_stream, text_to_speech_stream_body, bind, lift, ret.
  cbn [as_dict]. rewrite H. reflexivity.
Qed.

Lemma stream_empty_text_rejected_witness :
  text_empty_or_absent Demo.empty_request
  /\ text_to_speech_stream Demo.tts_env Demo.tts_loaded (Ok (JObj Demo.empty_request))
       Demo.tts_fresh
     = (RespError 400 "No text provided", Demo.tts_fresh).
Proof.
  assert (H : text_empty_or_absent Demo.empty_request) by (vm_compute; reflexivity).
  split; [exact H|].
  exact (stream_empty_text_rejected Demo.tts_env Demo.tts_loaded Demo.empty_request
           Demo.tts_fresh H).
Defined.

(** Whatever it is sent, [text_to_speech_stream] (lines 159-241) writes no
    file and draws no identifier: the file system and the entropy pool
    are as before. *)
Theorem stream_leaves_disk_alone (E : Env) (g : globals E) (req : pyres json)
  (st : state E) :
  fs (snd (text_to_speech_stream E g req st)) = fs st
  /\ entropy (snd (text_to_speech_stream E g req st)) = entropy st.
Proof.
  unfold text_to_speech_stream, text_to_speech_stream_body, generate_audio_stream,
    bind, lift, ret, model_generate.
  cbv beta iota zeta. destruct_innermost; split; reflexivity.
Qed.

(** When the model raises (lines 190-212), the stream endpoint still
    answers 200, with the single empty chunk of line 212, whereas
    synthesize answers 500 with the model's message; neither writes a
    file. *)
Theorem model_failure_in_both_endpoints (E : Env) (g : globals E) (now : Q)
  (d : gmap string json) (st : state E) tok m input_ids prompt_input_ids e r' :
  MODEL_LOADED g = true -> tokenizer g = Some tok -> model g = Some m ->
  truthy (dict_get d "text" (JStr [])) = true ->
  tokenize E tok (dict_get d "style" default_style) (device E) = Ok input_ids ->
  tokenize E tok (dict_get d "text" (JStr [])) (device E) = Ok prompt_input_ids ->
  generate E m input_ids prompt_input_ids (ones_like E input_ids) (rng st) = (Raise e, r') ->
  fst (text_to_speech_stream E g (Ok (JObj d)) st) = RespStream (Ok [[]]) SAMPLING_RATE
  /\ fst (text_to_speech E g now (Ok (JObj d)) st) = RespError 500 e
  /\ fs (snd (text_to_speech E g now (Ok (JObj d)) st)) = fs st.
Proof.
  intros Hg Htok Hm T Hs Ht Hgen. split.
  - rewrite (stream_when_model_raises E g d st tok m input_ids prompt_input_ids e r'
               Hg Htok Hm T Hs Ht Hgen). reflexivity.
  - unfold text_to_speech, text_to_speech_body, bind, lift, ret. cbn [as_dict]. cbv zeta.
    rewrite T. cbn [negb]. rewrite Hg, Htok, Hm. unfold uuid4.
    destruct (urandom16 E (entropy st)) as [r en]. cbn [the].
    rewrite Hs, Ht. unfold model_generate. cbn [fs rng entropy].
    rewrite Hgen. split; reflexivity.
Qed.

Lemma model_failure_in_both_endpoints_witness :
  fst (text_to_speech_stream Demo.tts_broken_env Demo.tts_broken_loaded
         (Ok (JObj Demo.hello_request)) Demo.tts_broken_fresh)
  = RespStream (Ok [[]]) SAMPLING_RATE
  /\ fst (text_to_speech Demo.tts_broken_env Demo.tts_broken_loaded 0
            (Ok (JObj Demo.hello_request)) Demo.tts_broken_fresh)
     = RespError 500 "CUDA out of memory"
  /\ fs (snd (text_to_speech Demo.tts_broken_env Demo.tts_broken_loaded 0
                (Ok (JObj Demo.hello_request)) Demo.tts_broken_fresh))
     = fs Demo.tts_broken_fresh.
Proof.
  refine (model_failure_in_both_endpoints Demo.tts_broken_env Demo.tts_broken_loaded 0
            Demo.hello_request Demo.tts_broken_fresh tt tt
            (u "A clear, friendly voice speaks naturally.") (u "hello brave new world")
            "CUDA out of memory" 1%N _ _ _ _ _ _ _);
    vm_compute; reflexivity.
Defined.

(** When the tokenizer raises, the stream endpoint has already answered
    200: the exception ends the body (lines 186-187 run inside the
    generator, outside the handler's [try]), whereas synthesize answers
    500 with the tokenizer's message. *)
Theorem tokenizer_failure_in_both_endpoints (E : Env) (g : globals E) (now : Q)
  (d : gmap string json) (st : state E) tok e :
  MODEL_LOADED g = true -> tokenizer g = Some tok ->
  truthy (dict_get d "text" (JStr [])) = true ->
  tokenize E tok (dict_get d "style" default_style) (device E) = Raise e ->
  text_to_speech_stream E g (Ok (JObj d)) st = (RespStream (Raise e) SAMPLING_RATE, st)
  /\ fst (text_to_speech E g now (Ok (JObj d)) st) = RespError 500 e
  /\ fs (snd (text_to_speech E g now (Ok (JObj d)) st)) = fs st.
Proof.
  intros Hg Htok T Hs. split.
  - unfold text_to_speech_stream, text_to_speech_stream_body, bind, lift, ret.
    cbn [as_dict]. cbv zeta. rewrite T. cbn [negb].
    unfold generate_audio_stream, bind, lift. rewrite Hg, Htok. cbn [the]. rewrite Hs.
    reflexivity.
  - unfold text_to_speech, text_to_speech_body, bind, lift, ret. cbn [as_dict]. cbv zeta.
    rewrite T. cbn [negb]. rewrite Hg, Htok. unfold uuid4.
    destruct (urandom16 E (entropy st)) as [r en]. cbn [the]. rewrite Hs.
    split; reflexivity.
Qed.

Lemma tokenizer_failure_in_both_endpoints_witness :
  text_to_speech_stream Demo.tts_env Demo.tts_loaded (Ok (JObj Demo.number_style_request))
    Demo.tts_fresh
  = (RespStream (Raise "text input must be of type str") SAMPLING_RATE, Demo.tts_fresh)
  /\ fst (text_to_speech Demo.tts_env Demo.tts_loaded 0 (Ok (JObj Demo.number_style_request))
            Demo.tts_fresh)
     = RespError 500 "text input must be of type str"
  /\ fs (snd (text_to_speech Demo.tts_env Demo.tts_loaded 0
                (Ok (JObj Demo.number_style_request)) Demo.tts_fresh))
     = fs Demo.tts_fresh.
Proof.
  refine (tokenizer_failure_in_both_endpoints Demo.tts_env Demo.tts_loaded 0
            Demo.number_style_request Demo.tts_fresh tt
            "text input must be of type str" _ _ _ _);
    vm_compute; reflexivity.
Defined.

(** *** Synthesize: failures and what reaches the disk *)

(** Any exception of the generation step of [text_to_speech] (lines
    95-131: a tokenizer or model that raises, or a text that is not a
    string on the fallback path) is answered 500 with the exception's
    message (line 157); an identifier has been drawn by then, but no file
    is written. *)
Theorem synthesize_generation_failure (E : Env) (g : globals E) (now : Q)
  (d : gmap string json) (st : state E) e r' :
  truthy (dict_get d "text" (JStr [])) = true ->
  generation E g (dict_get d "text" (JStr [])) (dict_get d "style" default_style) (rng st)
    = (Raise e, r') ->
  text_to_speech E g now (Ok (JObj d)) st =
    (RespError 500 e,
     {| fs := fs st; rng := r'; entropy := snd (urandom16 E (entropy st)) |}).
Proof.
  intros T G.
  unfold text_to_speech, text_to_speech_body, bind, lift, ret. cbn [as_dict]. cbv zeta.
  rewrite T. cbn [negb].
  unfold generation in G. unfold uuid4, model_generate, torchaudio_save.
  destruct (urandom16 E (entropy st)) as [r en]. cbn [fst snd fs rng entropy].
  destruct (MODEL_LOADED g).
  - destruct (the (tokenizer g) not_callable) as [tok|]; [|injection G as <- <-; reflexivity].
    destruct (tokenize E tok _ (device E)) as [input_ids|]; [|injection G as <- <-; reflexivity].
    destruct (tokenize E tok _ (device E)) as [prompt_input_ids|];
      [|injection G as <- <-; reflexivity].
    destruct (the (model g) no_generate) as [m|]; [|injection G as <- <-; reflexivity].
    cbn [fs rng entropy]. rewrite G. reflexivity.
  - injection G as G <-. rewrite G. reflexivity.
Qed.

Lemma synthesize_generation_failure_witness :
  text_to_speech Demo.tts_env Demo.tts_fallback 0 (Ok (JObj Demo.number_request))
    Demo.tts_fresh
  = (RespError 500 "'int' object has no attribute 'split'",
     TTS.Build_state Demo.tts_env (fs Demo.tts_fresh) 0%N 1%N).
Proof.
  refine (synthesize_generation_failure Demo.tts_env Demo.tts_fallback 0
            Demo.number_request Demo.tts_fresh "'int' object has no attribute 'split'"
            0%N _ _); vm_compute; reflexivity.
Defined.

(** A call of [text_to_speech] (lines 67-157) changes at most one path of
    the file system, the one of the name it builds at line 92, and
    changes none unless it answers with a success response. *)
Theorem synthesize_touches_one_path (E : Env) (g : globals E) (now : Q)
  (req : pyres json) (st : state E) :
  (forall k, k <> resolve (os_path_join AUDIO_DIR (next_filename E st)) ->
             fs (snd (text_to_speech E g now req st)) !! k = fs st !! k)
  /\ ((forall a dur r m, fst (text_to_speech E g now req st) <> RespSynth a dur r m) ->
      fs (snd (text_to_speech E g now req st)) = fs st).
Proof.
  destruct (synth_fs_effect E g now req st) as [H | (c & dur & rate & m & H & Hr)].
  - split; [intros k _; rewrite H; reflexivity | intros _; exact H].
  - split.
    + intros k Hk. rewrite H. unfold write_file. apply lookup_insert_ne. congruence.
    + intros Hno. exfalso. exact (Hno _ _ _ _ Hr).
Qed.

Lemma synthesize_touches_one_path_witness :
  fs (snd (text_to_speech Demo.tts_env Demo.tts_loaded 60 (Ok (JObj Demo.hello_request))
             Demo.tts_foreign)) !! "/tmp/tts_audio/greeting.wav"%string
  = Some (File [x52; x49; x46; x46] 0).
Proof.
  rewrite (proj1 (synthesize_touches_one_path Demo.tts_env Demo.tts_loaded 60
                    (Ok (JObj Demo.hello_request)) Demo.tts_foreign)
             "/tmp/tts_audio/greeting.wav"%string);
    [vm_compute; reflexivity | vm_compute; discriminate].
Defined.

(** The URL a successful [text_to_speech] returns leads back to the file
    it saved: the name is one the route [/audio/<filename>] accepts, and
    [serve_audio] on it, in the state synthesize leaves, serves the bytes
    [torchaudio.save] wrote (lines 117-121 or 134-138, then 244-249). *)
Theorem synthesize_then_serve (E : Env) (g : globals E) (now : Q)
  (d : gmap string json) (st : state E) arr r' :
  truthy (dict_get d "text" (JStr [])) = true ->
  generation E g (dict_get d "text" (JStr [])) (dict_get d "style" default_style) (rng st)
    = (Ok arr, r') ->
  let name := next_filename E st in
  exists dur backend st',
    text_to_speech E g now (Ok (JObj d)) st
      = (RespSynth ("/audio/" +:+ name) dur SAMPLING_RATE backend, st')
    /\ route_filename name
    /\ serve_audio E name st'
       = (RespFile (wav_encode E (saved_samples E g arr) SAMPLING_RATE), st').
Proof.
  intros T G name.
  pose proof (synth_saves_generation E g now d st arr r' T G) as H.
  pose proof (Paths.next_filename_proper E st) as Hp. fold name in Hp, H.
  eexists _, _, _. split; [exact H|]. split; [exact (proj1 Hp)|].
  unfold serve_audio, os_path_exists, send_file, after_save. cbn [fs].
  fold name. unfold write_file. rewrite lookup_insert_eq. reflexivity.
Qed.

Lemma synthesize_then_serve_witness :
  exists dur backend st',
    text_to_speech Demo.tts_env Demo.tts_loaded 0 (Ok (JObj Demo.hello_request))
      Demo.tts_fresh
    = (RespSynth ("/audio/" +:+ next_filename Demo.tts_env Demo.tts_fresh) dur
         SAMPLING_RATE backend, st')
    /\ route_filename (next_filename Demo.tts_env Demo.tts_fresh)
    /\ serve_audio Demo.tts_env (next_filename Demo.tts_env Demo.tts_fresh) st'
       = (RespFile
            (wav_encode Demo.tts_env
               (saved_samples Demo.tts_env Demo.tts_loaded
                  (map (fun c => to_float32 (inject_Z (Z.of_N c mod 100) / 128))
                       (u "hello brave new world")))
               SAMPLING_RATE), st').
Proof.
  refine (synthesize_then_serve Demo.tts_env Demo.tts_loaded 0 Demo.hello_request
            Demo.tts_fresh _ 1%N _ _); vm_compute; reflexivity.
Defined.

(** *** A text of blanks *)

Lemma split_blanks : forall s, forallb isspace s = true -> str_split s = [].
Proof.
  unfold str_split. induction s as [|c s IH]; [reflexivity|].
  cbn [forallb split_from]. intros H. apply andb_true_iff in H as [Hc Hs].
  rewrite Hc. apply IH, Hs.
Qed.

(** A text made of whitespace only passes the check of line 87 (it is
    not empty) and has no word (line 125): on the fallback path the
    response is a success with duration 0, and the file saved holds no
    sample. *)
Theorem blank_text_gives_empty_audio (E : Env) (g : globals E) (now : Q)
  (d : gmap string json) (st : state E) (text : pystr) :
  MODEL_LOADED g = false ->
  d !! "text"%string = Some (JStr text) -> text <> [] -> forallb isspace text = true ->
  text_to_speech E g now (Ok (JObj d)) st =
    (RespSynth ("/audio/" +:+ next_filename E st) 0 SAMPLING_RATE "fallback",
     after_save E now st [] (rng st)).
Proof.
  intros Hg Ht Hne Hsp.
  destruct (fallback_run E g now d st text Hg Ht Hne) as (arr & Harr & Hlen & H).
  rewrite (split_blanks text Hsp) in Hlen.
  assert (Hnil : arr = []).
  { destruct arr; [reflexivity|]. exfalso.
    change (tone_samples (len (@nil pystr))) with 0%Z in Hlen. unfold len in Hlen.
    cbn [length] in Hlen. lia. }
  subst arr. exact H.
Qed.

Lemma blank_text_gives_empty_audio_witness :
  text_to_speech Demo.tts_env Demo.tts_fallback 0 (Ok (JObj Demo.blank_request))
    Demo.tts_fresh
  = (RespSynth ("/audio/" +:+ next_filename Demo.tts_env Demo.tts_fresh) 0 SAMPLING_RATE
       "fallback",
     after_save Demo.tts_env 0 Demo.tts_fresh [] (rng Demo.tts_fresh)).
Proof.
  refine (blank_text_gives_empty_audio Demo.tts_env Demo.tts_fallback 0 Demo.blank_request
            Demo.tts_fresh [32; 9; 32]%N _ _ _ _);
    try (vm_compute; reflexivity); discriminate.
Defined.

(** *** The sweep *)

Lemma strip_prefix_app p s : strip_prefix p (p ++ s) = Some s.
Proof.
  induction p as [|c p IH]; [reflexivity|].
  cbn [app strip_prefix]. rewrite Ascii.eqb_refl. exact IH.
Qed.

Lemma resolve_audio_dir : resolve AUDIO_DIR = AUDIO_DIR.
Proof. vm_compute. reflexivity. Qed.

(** [os.listdir] lists every entry directly under the audio directory. *)
Lemma listdir_complete (fs0 : gmap string node) name node0 :
  route_filename name ->
  fs0 !! (AUDIO_DIR +:+ "/" +:+ name) = Some node0 ->
  In name (os_listdir fs0 AUDIO_DIR).
Proof.
  intros [Hne Hns] Hl. unfold os_listdir.
  apply list_elem_of_In, list_elem_of_omap.
  exists (AUDIO_DIR +:+ "/" +:+ name, node0). split.
  - apply elem_of_map_to_list. exact Hl.
  - cbn [fst]. rewrite resolve_audio_dir. unfold child_name.
    rewrite !Paths.chars_app.
    change (chars AUDIO_DIR ++ chars "/" ++ chars name)
      with ((chars AUDIO_DIR ++ ["/"%char]) ++ chars name).
    rewrite strip_prefix_app.
    destruct (chars name) as [|c rest] eqn:Hc.
    + exfalso. apply Hne. apply Paths.chars_inj. exact Hc.
    + rewrite Hns. rewrite <- Hc, Paths.str_chars. reflexivity.
Qed.

Lemma sweep_fold_none now names : forall (fs0 : gmap string node) k,
  fs0 !! k = None -> fold_left (sweep_one now) names fs0 !! k = None.
Proof.
  induction names as [|n names IH]; intros fs0 k H; [exact H|].
  cbn [fold_left]. apply IH.
  destruct (sweep_one_lookup now fs0 n k) as [H'|H']; [exact H' | rewrite H'; exact H].
Qed.

Lemma sweep_one_old now (fs0 : gmap string node) name c t :
  proper_name name ->
  fs0 !! (AUDIO_DIR +:+ "/" +:+ name) = Some (File c t) ->
  (3600 < RN 53 (now - t))%Q ->
  sweep_one now fs0 name !! (AUDIO_DIR +:+ "/" +:+ name) = None.
Proof.
  intros Hp Hl Hold. unfold sweep_one, os_path_isfile, os_path_getmtime, os_remove.
  rewrite (Paths.join_child _ (proj1 Hp)), (Paths.resolve_child _ Hp), Hl.
  destruct (Qle_bool (RN 53 (now - t)) 3600) eqn:A.
  - apply Qle_bool_iff in A. exfalso. apply (Qlt_not_le _ _ Hold A).
  - apply lookup_delete_eq.
Qed.

Lemma sweep_fold_old now names : forall (fs0 : gmap string node) name c t,
  In name names -> proper_name name ->
  fs0 !! (AUDIO_DIR +:+ "/" +:+ name) = None
  \/ fs0 !! (AUDIO_DIR +:+ "/" +:+ name) = Some (File c t) ->
  (3600 < RN 53 (now - t))%Q ->
  fold_left (sweep_one now) names fs0 !! (AUDIO_DIR +:+ "/" +:+ name) = None.
Proof.
  induction names as [|n names IH]; intros fs0 name c t Hin Hp Hl Hold; [destruct Hin|].
  cbn [fold_left].
  destruct (sweep_one_lookup now fs0 n (AUDIO_DIR +:+ "/" +:+ name)) as [Hs|Hs].
  - apply sweep_fold_none. exact Hs.
  - destruct Hl as [Hl|Hl].
    + apply sweep_fold_none. rewrite Hs. exact Hl.
    + destruct Hin as [->|Hin].
      * apply sweep_fold_none. apply (sweep_one_old now fs0 name c t Hp Hl Hold).
      * apply (IH _ name c t Hin Hp); [right; rewrite Hs; exact Hl | exact Hold].
Qed.

Lemma sweep_one_keeps now (fs0 : gmap string node) n k node0 :
  fs0 !! k = Some node0 ->
  (node0 = Dir \/ exists c t, node0 = File c t /\ (RN 53 (now - t) <= 3600)%Q) ->
  sweep_one now fs0 n !! k = Some node0.
Proof.
  intros Hl Hkeep. unfold sweep_one, os_path_isfile, os_path_getmtime, os_remove.
  destruct (decide (resolve (os_path_join AUDIO_DIR n) = k)) as [->|Hne].
  - rewrite Hl. destruct Hkeep as [->|(c & t & -> & Hy)]; [exact Hl|].
    apply Qle_bool_iff in Hy. rewrite Hy. exact Hl.
  - destruct (fs0 !! resolve (os_path_join AUDIO_DIR n)) as [[c t|]|]; try exact Hl.
    destruct (Qle_bool _ 3600); [exact Hl|].
    rewrite lookup_delete_ne by exact Hne. exact Hl.
Qed.

Lemma sweep_fold_keeps now names : forall (fs0 : gmap string node) k node0,
  fs0 !! k = Some node0 ->
  (node0 = Dir \/ exists c t, node0 = File c t /\ (RN 53 (now - t) <= 3600)%Q) ->
  fold_left (sweep_one now) names fs0 !! k = Some node0.
Proof.
  induction names as [|n names IH]; intros fs0 k node0 Hl Hkeep; [exact Hl|].
  cbn [fold_left]. apply IH; [apply sweep_one_keeps; assumption | exact Hkeep].
Qed.

(** [cleanup_old_files] (lines 289-301) at time [now]: a file directly
    under the audio directory whose age [now - mtime] exceeds 3600 seconds
    is gone afterwards; a file anywhere whose age is at most 3600 seconds,
    and every directory, is still there, unchanged. *)
Theorem sweep_removes_old_keeps_young (E : Env) (now : Q) (st : state E) :
  (forall name c t,
     proper_name name ->
     fs st !! (AUDIO_DIR +:+ "/" +:+ name) = Some (File c t) ->
     (3600 < RN 53 (now - t))%Q ->
     fs (cleanup_old_files E now st) !! (AUDIO_DIR +:+ "/" +:+ name) = None)
  /\ (forall k c t,
       fs st !! k = Some (File c t) ->
       (RN 53 (now - t) <= 3600)%Q ->
       fs (cleanup_old_files E now st) !! k = Some (File c t))
  /\ (forall k, fs st !! k = Some Dir -> fs (cleanup_old_files E now st) !! k = Some Dir).
Proof.
  unfold cleanup_old_files. cbn [fs]. split; [|split].
  - intros name c t Hp Hl Hold.
    apply (sweep_fold_old now _ (fs st) name c t); try assumption.
    + apply (listdir_complete _ _ _ (proj1 Hp) Hl).
    + right. exact Hl.
  - intros k c t Hl Hy. apply sweep_fold_keeps; [exact Hl|]. right. eauto.
  - intros k Hl. apply sweep_fold_keeps; [exact Hl|]. left. reflexivity.
Qed.

(** A file that synthesize saved at time [now] is served until the first
    sweep that runs more than an hour later (lines 297-298), and answered
    404 after it. *)
Theorem saved_file_expires (E : Env) (g : globals E) (now later : Q)
  (d : gmap string json) (st : state E) arr r' :
  truthy (dict_get d "text" (JStr [])) = true ->
  generation E g (dict_get d "text" (JStr [])) (dict_get d "style" default_style) (rng st)
    = (Ok arr, r') ->
  let name := next_filename E st in
  let swept := cleanup_old_files E later (snd (text_to_speech E g now (Ok (JObj d)) st)) in
  ((RN 53 (later - now) <= 3600)%Q ->
   fst (serve_audio E name swept)
     = RespFile (wav_encode E (saved_samples E g arr) SAMPLING_RATE))
  /\ ((3600 < RN 53 (later - now))%Q ->
      fst (serve_audio E name swept) = RespError 404 "Audio file not found").
Proof.
  intros T G name swept.
  pose proof (Paths.next_filename_proper E st) as Hp. fold name in Hp.
  assert (Hpath : resolve (os_path_join AUDIO_DIR name) = AUDIO_DIR +:+ "/" +:+ name)
    by (rewrite (Paths.join_child _ (proj1 Hp)); apply Paths.resolve_child, Hp).
  assert (Hsaved : fs (snd (text_to_speech E g now (Ok (JObj d)) st))
                     !! (AUDIO_DIR +:+ "/" +:+ name)
                   = Some (File (wav_encode E (saved_samples E g arr) SAMPLING_RATE) now)).
  { rewrite (synth_saves_generation E g now d st arr r' T G). cbn [snd].
    unfold after_save. cbn [fs]. fold name. unfold write_file.
    rewrite Hpath. apply lookup_insert_eq. }
  split; intros Hage.
  - unfold serve_audio, os_path_exists, send_file. cbn [fst]. rewrite Hpath.
    subst swept. unfold cleanup_old_files. cbn [fs].
    rewrite (sweep_fold_keeps later _ _ _ _ Hsaved
               (or_intror (ex_intro _ _ (ex_intro _ _ (conj eq_refl Hage))))).
    reflexivity.
  - unfold serve_audio, os_path_exists, send_file. cbn [fst]. rewrite Hpath.
    subst swept. unfold cleanup_old_files. cbn [fs].
    rewrite (sweep_fold_old later _ _ name _ now
               (listdir_complete _ _ _ (proj1 Hp) Hsaved) Hp (or_intror Hsaved) Hage).
    reflexivity.
Qed.

Lemma greeting_is_proper : proper_name "greeting.wav".
Proof. repeat split; (discriminate || reflexivity). Qed.

Lemma sweep_removes_old_keeps_young_witness :
  fs (cleanup_old_files Demo.tts_env 5400 Demo.tts_foreign)
     !! (AUDIO_DIR +:+ "/" +:+ "greeting.wav") = None
  /\ fs (cleanup_old_files Demo.tts_env 1800 Demo.tts_foreign)
       !! ("/tmp/tts_audio/greeting.wav"%string) = Some (File [x52; x49; x46; x46] 0)
  /\ fs (cleanup_old_files Demo.tts_env 5400 Demo.tts_foreign) !! ("/tmp/tts_audio"%string)
     = Some Dir.
Proof.
  split; [|split].
  - refine (proj1 (sweep_removes_old_keeps_young Demo.tts_env 5400 Demo.tts_foreign)
              "greeting.wav"%string [x52; x49; x46; x46] 0%Q greeting_is_proper _ _);
      vm_compute; reflexivity.
  - refine (proj1 (proj2 (sweep_removes_old_keeps_young Demo.tts_env 1800 Demo.tts_foreign))
              _ _ _ _ _); [vm_compute; reflexivity | vm_compute; discriminate].
  - refine (proj2 (proj2 (sweep_removes_old_keeps_young Demo.tts_env 5400 Demo.tts_foreign))
              _ _). vm_compute. reflexivity.
Defined.

Lemma saved_file_expires_witness :
  fst (serve_audio Demo.tts_env (next_filename Demo.tts_env Demo.tts_fresh)
         (cleanup_old_files Demo.tts_env 5400
            (snd (text_to_speech Demo.tts_env Demo.tts_loaded 0
                    (Ok (JObj Demo.hello_request)) Demo.tts_fresh))))
  = RespError 404 "Audio file not found".
Proof.
  refine (proj2 (saved_file_expires Demo.tts_env Demo.tts_loaded 0 5400 Demo.hello_request
                   Demo.tts_fresh _ 1%N _ _) _); vm_compute; reflexivity.
Defined.

(** *** A body that is not an object *)

(** Both endpoints call [data.get] on whatever [request.get_json()]
    returned (lines 82 and 173).  A JSON body that is not an object, such
    as a string, a list or [null], is therefore answered 500 with the
    AttributeError's message, not 400, and nothing is generated or
    written, whether or not the model is loaded. *)
Theorem non_object_body_in_both_endpoints (E : Env) (g : globals E) (now : Q)
  (data : json) (st : state E) :
  (forall m, data <> JObj m) ->
  exists e,
    as_dict data = Raise e
    /\ text_to_speech E g now (Ok data) st = (RespError 500 e, st)
    /\ text_to_speech_stream E g (Ok data) st = (RespError 500 e, st).
Proof.
  intros H.
  destruct (as_dict data) as [m|e] eqn:Hd.
  - destruct data; try discriminate Hd. exfalso. eapply H. reflexivity.
  - exists e. split; [reflexivity|]. split.
    + unfold text_to_speech, text_to_speech_body, bind, lift. rewrite Hd. reflexivity.
    + unfold text_to_speech_stream, text_to_speech_stream_body, bind, lift.
      rewrite Hd. reflexivity.
Qed.

Lemma non_object_body_in_both_endpoints_witness :
  exists e,
    as_dict (JArr [JStr (u "hello")]) = Raise e
    /\ text_to_speech Demo.tts_env Demo.tts_loaded 0 (Ok (JArr [JStr (u "hello")]))
         Demo.tts_fresh = (RespError 500 e, Demo.tts_fresh)
    /\ text_to_speech_stream Demo.tts_env Demo.tts_loaded (Ok (JArr [JStr (u "hello")]))
         Demo.tts_fresh = (RespError 500 e, Demo.tts_fresh).
Proof.
  apply (non_object_body_in_both_endpoints Demo.tts_env Demo.tts_loaded 0
           (JArr [JStr (u "hello")]) Demo.tts_fresh).
  intros m. discriminate.
Defined.

End TTSMore.

(* ================================================================= *)
(** ** 16-bit PCM, written by one service and read by the other *)

Module PCMFacts.
Import Py TTS Rounding.

Lemma wrap16_range z : (-32768 <= wrap16 z <= 32767)%Z.
Proof. unfold wrap16. pose proof (Z.mod_pos_bound (z + 32768) 65536 eq_refl). lia. Qed.

Lemma wrap16_id z : (-32768 <= z <= 32767)%Z -> wrap16 z = z.
Proof. intros H. unfold wrap16. rewrite Z.mod_small by lia. lia. Qed.

Lemma Z_of_byte_of_Z z : Z_of_byte (byte_of_Z z) = (z mod 256)%Z.
Proof.
  unfold Z_of_byte, byte_of_Z.
  pose proof (Z.mod_pos_bound z 256 eq_refl) as B.
  destruct (Byte.of_N (Z.to_N (z mod 256))) as [b|] eqn:Hb.
  - apply Byte.to_of_N in Hb. rewrite Hb. lia.
  - apply Byte.of_N_None_iff in Hb. lia.
Qed.

(** Two bytes written for an int16 read back as that int16. *)
Lemma int16_bytes_round_trip v : (-32768 <= v <= 32767)%Z ->
  int16_of_bytes (byte_of_Z v) (byte_of_Z (v / 256)) = v.
Proof.
  intros H. unfold int16_of_bytes. rewrite !Z_of_byte_of_Z.
  destruct (Z.ltb_spec (v mod 256 + 256 * ((v / 256) mod 256)) 32768);
    Z.div_mod_to_equations; lia.
Qed.

Lemma int16_pairs_tobytes (l : list Z) :
  Forall (fun v => (-32768 <= v <= 32767)%Z) l -> int16_pairs (tobytes l) = l.
Proof.
  induction 1 as [|v l Hv _ IH]; [reflexivity|].
  unfold tobytes in *. cbn [flat_map int16_bytes app int16_pairs].
  rewrite int16_bytes_round_trip by exact Hv. rewrite IH. reflexivity.
Qed.

Lemma even_length_tobytes (l : list Z) : Nat.even (length (tobytes l)) = true.
Proof.
  unfold tobytes. induction l as [|v l IH]; [reflexivity|].
  cbn [flat_map int16_bytes app length]. exact IH.
Qed.

Lemma astype_int16_range x : (-32768 <= astype_int16 x <= 32767)%Z.
Proof. apply wrap16_range. Qed.

(** The bytes [text_to_speech_stream] yields (lines 203-208, 222-226), put
    together, are a payload [np.frombuffer(..., dtype=np.int16)] of
    [detect_stream] (line 146) accepts, and it decodes to the very int16
    samples the stream encoded, one per sample of the array. *)
Theorem stream_bytes_decode_back (mul : Q -> Q -> Q) (audio_arr : list Q) :
  np_frombuffer_int16 (concat (pcm_chunks mul audio_arr))
  = Ok (map (fun x => astype_int16 (mul x 32767%Q)) audio_arr).
Proof.
  rewrite Chunking.pcm_chunks_spec, Chunking.pcm16_concat.
  rewrite Chunking.concat_chunks_of by lia.
  unfold pcm16, np_frombuffer_int16. rewrite even_length_tobytes.
  rewrite int16_pairs_tobytes; [reflexivity|].
  apply Forall_forall. intros v Hv. apply list_elem_of_In, in_map_iff in Hv.
  destruct Hv as (x & <- & _). apply astype_int16_range.
Qed.

Lemma py_int_mono x y : (x <= y)%Q -> (py_int x <= py_int y)%Z.
Proof.
  intros H. unfold py_int.
  destruct (Qle_bool 0 x) eqn:A, (Qle_bool 0 y) eqn:B.
  - apply Qfloor_resp_le, H.
  - apply Qle_bool_iff in A. exfalso.
    assert (C : (0 <= y)%Q) by lra. apply Qle_bool_iff in C. congruence.
  - apply Qle_bool_iff in B.
    assert (C : ~ (0 <= x)%Q) by (intros C; apply Qle_bool_iff in C; congruence).
    assert (Hx : (x <= 0)%Q) by lra.
    pose proof (Qceiling_resp_le _ _ Hx) as C1.
    pose proof (Qfloor_resp_le _ _ B) as C2.
    change (Qceiling 0) with 0%Z in C1. change (Qfloor 0) with 0%Z in C2. lia.
  - apply Qceiling_resp_le, H.
Qed.

Lemma scaled_in_range p x : (15 <= p - 1)%Z -> (-1 <= x)%Q -> (x <= 1)%Q ->
  (-32767 <= py_int (RN p (x * 32767)) <= 32767)%Z.
Proof.
  intros Hp Hlo Hhi.
  assert (P : (2 ^ 16 <= 2 ^ p)%Z) by (apply Z.pow_le_mono_r; lia).
  assert (U : (RN p (x * 32767) <= inject_Z 32767)%Q).
  { rewrite <- (RN_int p 32767) by (cbn in *; lia).
    apply RN_mono; [lia|]. change (inject_Z 32767) with 32767%Q. lra. }
  assert (L : (inject_Z (-32767) <= RN p (x * 32767))%Q).
  { rewrite <- (RN_int p (-32767)) by (cbn in *; lia).
    apply RN_mono; [lia|]. change (inject_Z (-32767)) with (-32767)%Q. lra. }
  apply py_int_mono in U, L. rewrite py_int_Z in U, L. lia.
Qed.

(** A sample between -1 and 1, float32 or float64, is scaled and cast
    (lines 207 and 225) without wrap-around: the int16 is the truncation
    of the scaled sample and lies between -32767 and 32767. *)
Theorem unit_samples_do_not_wrap (x : Q) :
  (-1 <= x)%Q -> (x <= 1)%Q ->
  (astype_int16 (fmul32 x 32767) = py_int (fmul32 x 32767)
   /\ (-32767 <= astype_int16 (fmul32 x 32767) <= 32767)%Z)
  /\ (astype_int16 (fmul64 x 32767) = py_int (fmul64 x 32767)
      /\ (-32767 <= astype_int16 (fmul64 x 32767) <= 32767)%Z).
Proof.
  intros Hlo Hhi. unfold astype_int16, fmul32, fmul64.
  pose proof (scaled_in_range 24 x ltac:(lia) Hlo Hhi) as H32.
  pose proof (scaled_in_range 53 x ltac:(lia) Hlo Hhi) as H64.
  rewrite !wrap16_id by lia. repeat split; lia.
Qed.

Lemma unit_samples_do_not_wrap_witness :
  astype_int16 (fmul32 (1 # 2) 32767) = 16383%Z
  /\ (-32767 <= astype_int16 (fmul64 (1 # 2) 32767) <= 32767)%Z.
Proof.
  destruct (unit_samples_do_not_wrap (1 # 2) ltac:(discriminate) ltac:(discriminate))
    as ((H1 & _) & (_ & H2)).
  split; [rewrite H1; vm_compute; reflexivity | exact H2].
Defined.

(** *** The placeholder tone *)

(** With a sine between -1 and 1, every sample of the placeholder tone
    (lines 131 and 220) has magnitude at most 0.3, and the stream
    endpoint turns it (line 225) into an int16 of magnitude at most 9830,
    without wrap-around. *)
Theorem fallback_tone_never_clips (E : Env) (text : json) (arr : list Q) :
  (forall x, (-1 <= np_sin E x)%Q /\ (np_sin E x <= 1)%Q) ->
  fallback_tone E text = Ok arr ->
  Forall (fun s => ((-3 # 10) <= s)%Q /\ (s <= 3 # 10)%Q
                   /\ astype_int16 (fmul64 s 32767) = py_int (fmul64 s 32767)
                   /\ (-9830 <= astype_int16 (fmul64 s 32767) <= 9830)%Z) arr.
Proof.
  intros Hsin H. unfold fallback_tone in H.
  destruct (split_method text) as [words|e]; [|discriminate H].
  cbv zeta in H. destruct (np_linspace _ _ _) as [t|e]; [|discriminate H].
  injection H as <-. apply Forall_forall. intros s Hs.
  apply list_elem_of_In, in_map_iff in Hs. destruct Hs as (x & <- & _).
  set (y := np_sin E _). destruct (Hsin (fmul64 (fmul64 (float_of_int (440 * 2)) np_pi) x))
    as [Hlo Hhi]. fold y in Hlo, Hhi.
  set (c := lit (3 # 10)).
  assert (Hc : (0 < c)%Q) by (vm_compute; reflexivity).
  assert (Up : (fmul64 y c <= RN 53 (1 * c))%Q).
  { unfold fmul64. apply RN_mono; [lia|]. nra. }
  assert (Lo : (RN 53 (-1 * c) <= fmul64 y c)%Q).
  { unfold fmul64. apply RN_mono; [lia|]. nra. }
  assert (U1 : (RN 53 (1 * c) <= 3 # 10)%Q) by (vm_compute; discriminate).
  assert (L1 : ((-3 # 10) <= RN 53 (-1 * c))%Q) by (vm_compute; discriminate).
  set (s := fmul64 y c) in *.
  assert (U2 : (fmul64 s 32767 <= RN 53 ((3 # 10) * 32767))%Q).
  { unfold fmul64. apply RN_mono; [lia|]. lra. }
  assert (L2 : (RN 53 ((-3 # 10) * 32767) <= fmul64 s 32767)%Q).
  { unfold fmul64. apply RN_mono; [lia|]. lra. }
  apply py_int_mono in U2, L2.
  assert (U3 : py_int (RN 53 ((3 # 10) * 32767)) = 9830%Z) by (vm_compute; reflexivity).
  assert (L3 : py_int (RN 53 ((-3 # 10) * 32767)) = (-9830)%Z) by (vm_compute; reflexivity).
  rewrite U3 in U2. rewrite L3 in L2.
  split; [lra|]. split; [lra|].
  unfold astype_int16. rewrite wrap16_id by lia. split; [reflexivity | lia].
Qed.

Lemma fallback_tone_never_clips_witness :
  exists arr,
    fallback_tone Demo.tts_env (JStr (u "hi")) = Ok arr
    /\ len arr = 12000%Z
    /\ Forall (fun s => ((-3 # 10) <= s)%Q /\ (s <= 3 # 10)%Q
                        /\ astype_int16 (fmul64 s 32767) = py_int (fmul64 s 32767)
                        /\ (-9830 <= astype_int16 (fmul64 s 32767) <= 9830)%Z) arr.
Proof.
  destruct (TTSFacts.fallback_tone_str Demo.tts_env (u "hi")) as (arr & H & L).
  exists arr. split; [exact H|]. split; [rewrite L; vm_compute; reflexivity|].
  refine (fallback_tone_never_clips Demo.tts_env _ arr _ H).
  intros x. split; discriminate.
Defined.

End PCMFacts.

(* ================================================================= *)
(** ** More on the detection service *)

Module VADMore.
Import Py VAD Rounding VADFacts.

(** The loop of lines 90-93 evaluates the model on the slices of the
    segments, in order, and stops at the first evaluation that raises;
    it touches neither the disk nor the entropy pool. *)
Lemma score_segments_effect (E : Env) (wav : Tensor E) (segs : list segment) :
  forall st : state E,
    fs (snd (score_segments E wav segs st)) = fs st
    /\ entropy (snd (score_segments E wav segs st)) = entropy st
    /\ exists k, (k <= length segs)%nat
         /\ model_calls (snd (score_segments E wav segs st))
            = model_calls st
              ++ firstn k (map (fun s => tensor_slice E wav (seg_start s) (seg_end s)) segs)
         /\ (forall probs, fst (score_segments E wav segs st) = Ok probs ->
               k = length segs /\ length probs = length segs).
Proof.
  induction segs as [|s rest IH]; intros st.
  - cbn. split; [reflexivity|]. split; [reflexivity|]. exists 0%nat.
    split; [lia|]. split; [symmetry; apply app_nil_r|].
    intros probs H. injection H as <-. split; reflexivity.
  - cbn [score_segments]. unfold bind, call_model.
    destruct (model_eval E _ SAMPLING_RATE (mstate st)) as [[p|e] ms].
    + match goal with |- context [score_segments E wav rest ?s] => set (st1 := s) end.
      destruct (IH st1) as (F & N & k & Hk & C & L).
      destruct (score_segments E wav rest st1) as [[probs|e] st2]; cbn [fst snd ret] in *.
      * split; [exact F|]. split; [exact N|]. exists (S k). split; [cbn [length]; lia|].
        split; [rewrite C; subst st1; cbn [model_calls map firstn];
                rewrite <- app_assoc; reflexivity|].
        intros probs' H. injection H as <-. destruct (L probs eq_refl) as [-> Hl].
        cbn [length]. split; congruence.
      * split; [exact F|]. split; [exact N|]. exists (S k). split; [cbn [length]; lia|].
        split; [rewrite C; subst st1; cbn [model_calls map firstn];
                rewrite <- app_assoc; reflexivity|].
        intros probs' H. discriminate H.
    + cbn [fst snd fs entropy model_calls]. split; [reflexivity|]. split; [reflexivity|].
      exists 1%nat. split; [cbn [length]; lia|]. split; [reflexivity|].
      intros probs H. discriminate H.
Qed.

Lemma detect_speech_try_keeps_disk (E : Env) (p : string) (st : state E) :
  fs (snd (detect_speech_try E p st)) = fs st.
Proof.
  unfold detect_speech_try, bind, read_audio, segmentation_pass.
  destruct (fs st !! p) as [bytes|]; [|reflexivity].
  destruct (decode_audio E bytes SAMPLING_RATE) as [wav|e]; [|reflexivity].
  destruct (get_speech_timestamps E wav THRESHOLD SAMPLING_RATE 250 100 512 30 (mstate st))
    as [[segs|e] ms]; [|reflexivity].
  destruct (0 <? len segs)%Z.
  - match goal with |- context [score_segments E wav segs ?s] => set (st1 := s) end.
    pose proof (proj1 (score_segments_effect E wav segs st1)) as F.
    destruct (score_segments E wav segs st1) as [[probs|e] st2]; exact F.
  - reflexivity.
Qed.

(** [detect_speech] answers 400 when the request has no [file] field
    (lines 58-59), and then nothing at all has happened: no temporary
    file, no model evaluation, no entropy drawn.  With a [file] field
    the answer is never 400: it is a detection or the 500 of line
    122. *)
Theorem detect_speech_400_iff_no_file (E : Env) (req : request) (st : state E) :
  (files req !! "file"%string = None ->
   detect_speech E req st = (RespError 400 "No file provided", st))
  /\ (status (fst (detect_speech E req st)) = 400%Z <-> files req !! "file"%string = None)
  /\ (status (fst (detect_speech E req st)) = 400%Z
      \/ status (fst (detect_speech E req st)) = 200%Z
      \/ status (fst (detect_speech E req st)) = 500%Z).
Proof.
  destruct (files req !! "file"%string) as [audio_file|] eqn:Hf.
  - rewrite (detect_speech_unfold E req st audio_file Hf). cbv zeta.
    destruct (detect_speech_try E _ (persisted E audio_file st)) as [[r|e] st'] eqn:Ht;
      cbn [fst status].
    + assert (S : status r = 200%Z).
      { unfold detect_speech_try, bind, read_audio, segmentation_pass in Ht.
        repeat match type of Ht with
               | context [match ?x with _ => _ end] => destruct x
               | context [if ?x then _ else _] => destruct x
               end; try discriminate Ht; injection Ht as <- _; reflexivity. }
      rewrite S. split; [discriminate|]. split; [split; discriminate | auto].
    + split; [discriminate|]. split; [split; discriminate | auto].
  - unfold detect_speech, detect_speech_body. rewrite Hf. cbn.
    split; [reflexivity|]. split; [split; reflexivity | auto].
Qed.

Lemma detect_speech_400_iff_no_file_witness :
  detect_speech Demo.vad_env Demo.no_file_request Demo.vad_busy
  = (RespError 400 "No file provided", Demo.vad_busy).
Proof.
  apply (proj1 (detect_speech_400_iff_no_file Demo.vad_env Demo.no_file_request Demo.vad_busy)).
  vm_compute. reflexivity.
Defined.

(** [detect_speech] leaves every path but the temporary one as it found
    it, whatever the request and whether it answers 200, 400 or 500. *)
Theorem detect_speech_touches_only_temp_file (E : Env) (req : request) (st : state E)
  (k : string) :
  k <> fst (temp_name E (entropy st)) ->
  fs (snd (detect_speech E req st)) !! k = fs st !! k.
Proof.
  intros Hk.
  destruct (files req !! "file"%string) as [audio_file|] eqn:Hf.
  - rewrite (detect_speech_unfold E req st audio_file Hf). cbv zeta.
    pose proof (detect_speech_try_keeps_disk E (fst (temp_name E (entropy st)))
                  (persisted E audio_file st)) as F.
    assert (R : forall st' : state E, fs st' = fs (persisted E audio_file st) ->
              fs (remove_if_exists E (fst (temp_name E (entropy st))) st') !! k = fs st !! k).
    { intros st' H. unfold remove_if_exists.
      destruct (fs st' !! fst (temp_name E (entropy st))); cbn [fs].
      - rewrite lookup_delete_ne by congruence. rewrite H. unfold persisted. cbn [fs].
        rewrite !lookup_insert_ne by congruence. reflexivity.
      - rewrite H. unfold persisted. cbn [fs].
        rewrite !lookup_insert_ne by congruence. reflexivity. }
    destruct (detect_speech_try E _ (persisted E audio_file st)) as [[r|e] st'];
      cbn [fst snd] in *; apply R, F.
  - unfold detect_speech, detect_speech_body. rewrite Hf. reflexivity.
Qed.

Lemma detect_speech_touches_only_temp_file_witness :
  fs (snd (detect_speech Demo.vad_env Demo.loud_upload Demo.vad_busy)) !! "/srv/notes.txt"%string
  = Some [x68; x69].
Proof.
  rewrite (detect_speech_touches_only_temp_file Demo.vad_env Demo.loud_upload Demo.vad_busy
             "/srv/notes.txt"%string); [vm_compute; reflexivity | vm_compute; discriminate].
Defined.




(** When the model raises on the first segment (line 92), the request
    is answered 500 with the model's message, after that one
    evaluation, and the temporary file is gone all the same. *)
Theorem detect_speech_model_failure (E : Env) (req : request) (st : state E)
  (wav : Tensor E) (s : segment) (rest : list segment) (ms' ms'' : MState E) (e : string) :
  segmentation_of E req st wav (s :: rest) ms' ->
  model_eval E (tensor_slice E wav (seg_start s) (seg_end s)) SAMPLING_RATE ms'
    = (Raise e, ms'') ->
  fst (detect_speech E req st) = RespError 500 e
  /\ model_calls (snd (detect_speech E req st))
     = model_calls st ++ [tensor_slice E wav (seg_start s) (seg_end s)]
  /\ mstate (snd (detect_speech E req st)) = ms''
  /\ fs (snd (detect_speech E req st)) !! fst (temp_name E (entropy st)) = None.
Proof.
  intros (audio_file & Hf & Hd & Hs) Hm.
  rewrite (detect_speech_unfold E req st audio_file Hf). cbv zeta.
  rewrite (try_after_segmentation E req st wav (s :: rest) ms' audio_file Hf Hd Hs).
  cbv zeta.
  assert (Hn : (0 <? len (s :: rest))%Z = true).
  { apply Z.ltb_lt. unfold len. cbn [length]. lia. }
  assert (Rm : forall (p : string) (s : state E),
             model_calls (remove_if_exists E p s) = model_calls s
             /\ mstate (remove_if_exists E p s) = mstate s).
  { intros p s0. unfold remove_if_exists. destruct (fs s0 !! p); split; reflexivity. }
  rewrite Hn. cbn [score_segments]. unfold bind, call_model.
  cbn [mstate]. rewrite Hm. cbn [fst snd].
  split; [reflexivity|].
  split; [|split].
  - rewrite (proj1 (Rm _ _)). reflexivity.
  - rewrite (proj2 (Rm _ _)). reflexivity.
  - apply remove_if_exists_gone.
Qed.

Lemma deaf_segmentation :
  segmentation_of Demo.vad_deaf_env Demo.loud_upload Demo.vad_deaf_fresh
    (map normalize [16384; -16384]%Z) [ {| seg_start := 0; seg_end := 2 |} ] 1%nat.
Proof. exists [x00; x40; x00; xc0]. repeat split; vm_compute; reflexivity. Qed.

Lemma detect_speech_model_failure_witness :
  fst (detect_speech Demo.vad_deaf_env Demo.loud_upload Demo.vad_deaf_fresh)
  = RespError 500 "Provided number of samples is not supported".
Proof.
  refine (proj1 (detect_speech_model_failure Demo.vad_deaf_env Demo.loud_upload
                   Demo.vad_deaf_fresh _ _ _ _ 1%nat _ deaf_segmentation _)).
  vm_compute. reflexivity.
Defined.

(** *** The single-chunk endpoint *)

(** The threshold 0.5 is a float exactly. *)
Lemma threshold_is_half : (THRESHOLD == 1 # 2)%Q.
Proof. vm_compute. reflexivity. Qed.

(** [detect_stream] (lines 137-158) on a payload of whole samples, the
    [file] field if there is one and the raw body otherwise: when the
    model returns [p], the answer carries [p] and the threshold 0.5, and
    [is_speech] holds exactly when [p] is strictly above one half; the
    model is left as that evaluation left it.  When the model raises,
    the answer is 500 with its message. *)
Theorem detect_stream_decision (E : Env) (req : request) (st : state E) :
  let payload := match files req !! "file"%string with
                 | Some audio_file => audio_file
                 | None => data req
                 end in
  let wav := from_numpy E (map normalize (int16_pairs payload)) in
  Nat.even (length payload) = true ->
  (forall p ms', model_eval E wav SAMPLING_RATE (mstate st) = (Ok p, ms') ->
     exists b, fst (detect_stream E req st) = RespChunk b p THRESHOLD
       /\ (b = true <-> (1 # 2 < p)%Q)
       /\ mstate (snd (detect_stream E req st)) = ms')
  /\ (forall e ms', model_eval E wav SAMPLING_RATE (mstate st) = (Raise e, ms') ->
       fst (detect_stream E req st) = RespError 500 e
       /\ mstate (snd (detect_stream E req st)) = ms').
Proof.
  intros payload wav Heven.
  assert (U : detect_stream E req st =
              match model_eval E wav SAMPLING_RATE (mstate st) with
              | (Ok p, ms) =>
                  (RespChunk (negb (Qle_bool p THRESHOLD)) p THRESHOLD,
                   {| fs := fs st; mstate := ms; entropy := entropy st;
                      model_calls := model_calls st ++ [wav] |})
              | (Raise e, ms) =>
                  (RespError 500 e,
                   {| fs := fs st; mstate := ms; entropy := entropy st;
                      model_calls := model_calls st ++ [wav] |})
              end).
  { unfold detect_stream, detect_stream_body, bind, lift, call_model.
    fold payload. unfold np_frombuffer_int16. rewrite Heven. fold wav.
    destruct (model_eval E wav SAMPLING_RATE (mstate st)) as [[p|e] ms]; reflexivity. }
  rewrite U. split.
  - intros p ms' ->. cbn [fst snd mstate].
    exists (negb (Qle_bool p THRESHOLD)). split; [reflexivity|]. split; [|reflexivity].
    pose proof threshold_is_half as T.
    destruct (Qle_bool p THRESHOLD) eqn:C; cbn [negb].
    + apply Qle_bool_iff in C. split; [discriminate|]. intros L. exfalso. lra.
    + split; [|reflexivity]. intros _.
      assert (N : ~ (p <= THRESHOLD)%Q) by (intros L; apply Qle_bool_iff in L; congruence).
      lra.
  - intros e ms' ->. cbn [fst snd mstate]. split; reflexivity.
Qed.

Lemma detect_stream_decision_witness :
  exists b,
    fst (detect_stream Demo.vad_env Demo.even_body Demo.vad_fresh)
    = RespChunk b (9 # 10) THRESHOLD
    /\ (b = true <-> (1 # 2 < 9 # 10)%Q)
    /\ mstate (snd (detect_stream Demo.vad_env Demo.even_body Demo.vad_fresh)) = 1%nat.
Proof.
  refine (proj1 (detect_stream_decision Demo.vad_env Demo.even_body Demo.vad_fresh _)
            (9 # 10)%Q 1%nat _); vm_compute; reflexivity.
Defined.

(** [detect_stream] never touches the disk or the entropy pool, never
    answers 400, and evaluates the model at most once. *)
Theorem detect_stream_keeps_disk (E : Env) (req : request) (st : state E) :
  fs (snd (detect_stream E req st)) = fs st
  /\ entropy (snd (detect_stream E req st)) = entropy st
  /\ (status (fst (detect_stream E req st)) = 200%Z
      \/ status (fst (detect_stream E req st)) = 500%Z)
  /\ (length (model_calls (snd (detect_stream E req st))) <= S (length (model_calls st)))%nat.
Proof.
  unfold detect_stream, detect_stream_body, bind, lift, call_model.
  destruct (np_frombuffer_int16 _) as [samples|e]; cbn [fst snd fs entropy status].
  - destruct (model_eval E _ SAMPLING_RATE (mstate st)) as [[p|e] ms];
      cbn [fst snd fs entropy status model_calls ret];
      rewrite ?length_app; cbn [length]; repeat split; auto; lia.
  - repeat split; auto.
Qed.

End VADMore.
